(** * Forex-Trading: the three backtesting strategies

    A shallow embedding of [src/main.py] (RSI mean reversion),
    [src/macd.py] (MACD crossover) and [src/trendfilteredrsi.py]
    (trend-filtered RSI with an ATR stop), and the properties the
    specification states about them.

    Numbers.  Python floats are embedded as exact rationals extended with
    the three special values of IEEE arithmetic ([PInf], [NInf], [NaN]);
    rounding, absorption, overflow and the sign of zero are outside the
    embedding, so the properties below are about branches, comparisons,
    not-a-number and exact values such as 0 and 100, and about results
    that follow the code's own sequence of operations.  Price columns
    hold finite values ([Q]); indicator arrays hold [pyfloat]s, so that the
    not-a-number entries pandas produces during warm-up are first-class. *)

From Stdlib Require Import QArith Qfield Lqa Lia List Bool.
From stdpp Require Import base option list.
Import ListNotations.

Local Open Scope Q_scope.

(** ** Floating-point values *)

Module Float.

Inductive pyfloat : Type :=
| Fin (q : Q)
| PInf
| NInf
| NaN.

Definition Qltb (a b : Q) : bool := negb (Qle_bool b a).

Definition is_zero (q : Q) : bool := Qeq_bool q 0.

(** [pd.isna] / [math.isnan]. *)
Definition isna (x : pyfloat) : bool :=
  match x with NaN => true | _ => false end.

(** Comparisons: every comparison with [NaN] is false. *)
Definition flt (x y : pyfloat) : bool :=
  match x, y with
  | NaN, _ | _, NaN => false
  | Fin a, Fin b => Qltb a b
  | Fin _, PInf => true
  | NInf, Fin _ => true
  | NInf, PInf => true
  | _, _ => false
  end.

Definition fgt (x y : pyfloat) : bool := flt y x.

Definition fle (x y : pyfloat) : bool :=
  match x, y with
  | NaN, _ | _, NaN => false
  | Fin a, Fin b => Qle_bool a b
  | _, PInf => true
  | NInf, _ => true
  | _, _ => false
  end.

Definition fneg (x : pyfloat) : pyfloat :=
  match x with
  | Fin a => Fin (- a)
  | PInf => NInf
  | NInf => PInf
  | NaN => NaN
  end.

Definition fadd (x y : pyfloat) : pyfloat :=
  match x, y with
  | NaN, _ | _, NaN => NaN
  | Fin a, Fin b => Fin (a + b)
  | PInf, NInf | NInf, PInf => NaN
  | PInf, _ | _, PInf => PInf
  | NInf, _ | _, NInf => NInf
  end.

Definition fsub (x y : pyfloat) : pyfloat := fadd x (fneg y).

(** Sign of a finite value, used by products and quotients with an
    infinite or zero operand. *)
Definition signed_inf (positive : bool) : pyfloat :=
  if positive then PInf else NInf.

Definition fmul (x y : pyfloat) : pyfloat :=
  match x, y with
  | NaN, _ | _, NaN => NaN
  | Fin a, Fin b => Fin (a * b)
  | Fin a, PInf | PInf, Fin a =>
      if is_zero a then NaN else signed_inf (Qltb 0 a)
  | Fin a, NInf | NInf, Fin a =>
      if is_zero a then NaN else signed_inf (Qltb a 0)
  | PInf, PInf | NInf, NInf => PInf
  | PInf, NInf | NInf, PInf => NaN
  end.

(** numpy/pandas division: a zero divisor gives an infinity (or [NaN] for
    [0/0]) and raises nothing. *)
Definition fdiv (x y : pyfloat) : pyfloat :=
  match x, y with
  | NaN, _ | _, NaN => NaN
  | Fin a, Fin b =>
      if is_zero b
      then (if is_zero a then NaN else signed_inf (Qltb 0 a))
      else Fin (a / b)
  | Fin _, (PInf | NInf) => Fin 0
  | PInf, Fin b => signed_inf (negb (Qltb b 0))
  | NInf, Fin b => signed_inf (Qltb b 0)
  | (PInf | NInf), (PInf | NInf) => NaN
  end.

Definition of_nat (n : nat) : Q := inject_Z (Z.of_nat n).

End Float.

Export Float.

(** ** Python sequences *)

Module Py.

(** [l[-k]] for [k >= 1]; [None] stands for [IndexError]. *)
Definition idx_neg {A} (l : list A) (k : nat) : option A :=
  if (k <=? length l)%nat then l !! (length l - k)%nat else None.

(** [max(a, b, c)] on integers. *)
Definition max3 (a b c : nat) : nat := Nat.max a (Nat.max b c).

(** Every element stands in relation [R] to the next one. *)
Definition stepwise {A} (R : A -> A -> Prop) (l : list A) : Prop :=
  forall j a b, l !! j = Some a -> l !! S j = Some b -> R a b.

End Py.

(** ** Exceptions

    A Python call either returns or raises; the exceptions the
    strategies' own code can raise are [IndexError] (from [arr[0]] or
    [arr[-1]] on an empty array) and [TypeError] (from calling an array). *)

Module Exc.

Inductive exn : Type := IndexError | TypeError.

Inductive outcome (A : Type) : Type :=
| Returned (a : A)
| Raised (e : exn).
Arguments Returned {A} a.
Arguments Raised {A} e.

#[export] Instance outcome_ret : MRet outcome := fun _ a => Returned a.
#[export] Instance outcome_bind : MBind outcome := fun _ _ f m =>
  match m with
  | Returned a => f a
  | Raised e => Raised e
  end.

(** An indexing operation: [None] becomes [IndexError]. *)
Definition index {A} (o : option A) : outcome A :=
  match o with
  | Some a => Returned a
  | None => Raised IndexError
  end.

End Exc.

Export Exc.

(** ** The backtesting engine's side of the strategy contract

    The strategies call [self.buy], [self.sell], [self.position.close] and
    read [self.position]; the engine replays the bars. *)

Module Engine.

Record Bar : Type := {
  bar_open : Q;
  bar_high : Q;
  bar_low : Q;
  bar_close : Q;
  bar_volume : Q
}.

Inductive Direction : Type := Flat | Long | Short.

Record Position : Type := {
  direction : Direction;
  entry_price : Q;
  stop_loss : option pyfloat
}.

Definition flat : Position :=
  {| direction := Flat; entry_price := 0; stop_loss := None |}.

(** [bool(self.position)], [self.position.is_long], [self.position.is_short]. *)
Definition position_bool (p : Position) : bool :=
  match direction p with Flat => false | _ => true end.
Definition is_long (p : Position) : bool :=
  match direction p with Long => true | _ => false end.
Definition is_short (p : Position) : bool :=
  match direction p with Short => true | _ => false end.

(** What one call of [next] asks the engine to do. *)
Inductive action : Type :=
| NoOrder
| Buy (sl : option pyfloat)        (* [self.buy(sl=...)] *)
| Sell (sl : option pyfloat)       (* [self.sell(sl=...)] *)
| ClosePosition.                   (* [self.position.close()] *)

Definition is_entry (a : action) : bool :=
  match a with Buy _ | Sell _ => true | _ => false end.

(** Lines written to standard output by [print]. *)
Inductive diagnostic : Type :=
| DataIsEmpty
| WarnNotEnoughData
| StrategyInitialized
| WarnIllogicalSLBuy (sl : pyfloat) (price : Q)
| WarnIllogicalSLSell (sl : pyfloat) (price : Q).

Record Trade : Type := {
  trade_direction : Direction;
  trade_entry_price : Q;
  trade_exit_price : pyfloat;
  trade_exit_bar : nat
}.

(** One entry of the run's history: the position the strategy saw at a
    bar and what it asked for. *)
Record Decision : Type := {
  seen : Position;
  asked : action
}.

Record SimulationState : Type := {
  bar_index : nat;
  position : Position;
  trade_log : list Trade;
  stdout : list diagnostic;
  history : list Decision
}.

Definition initial (out : list diagnostic) : SimulationState :=
  {| bar_index := 0; position := flat; trade_log := [];
     stdout := out; history := [] |}.

(** Modelled from the spec: the Position and Order Manager of section 4.3
    (the backtesting package's broker is not under src/).  A position is
    opened by an entry order only when flat, an entry order while a
    position is open is ignored, and a close while flat does nothing. *)
Definition close_at (px : pyfloat) (s : SimulationState) : SimulationState :=
  let p := position s in
  {| bar_index := bar_index s;
     position := flat;
     trade_log := trade_log s ++
       [{| trade_direction := direction p;
           trade_entry_price := entry_price p;
           trade_exit_price := px;
           trade_exit_bar := bar_index s |}];
     stdout := stdout s;
     history := history s |}.

Definition open_at (d : Direction) (b : Bar) (sl : option pyfloat)
    (s : SimulationState) : SimulationState :=
  {| bar_index := bar_index s;
     position := {| direction := d; entry_price := bar_close b;
                    stop_loss := sl |};
     trade_log := trade_log s;
     stdout := stdout s;
     history := history s |}.

Definition apply_action (b : Bar) (a : action) (s : SimulationState)
    : SimulationState :=
  match direction (position s), a with
  | Flat, Buy sl => open_at Long b sl s
  | Flat, Sell sl => open_at Short b sl s
  | (Long | Short), ClosePosition => close_at (Fin (bar_close b)) s
  | _, _ => s
  end.

(** Modelled from the spec: the stop-loss check of section 4.3; a long is
    stopped when the bar's low reaches the stop, a short when the bar's
    high does, and the fill is at the stop price. *)
Definition check_stop (b : Bar) (s : SimulationState) : SimulationState :=
  match direction (position s), stop_loss (position s) with
  | Long, Some sl =>
      if fle (Fin (bar_low b)) sl then close_at sl s else s
  | Short, Some sl =>
      if fle sl (Fin (bar_high b)) then close_at sl s else s
  | _, _ => s
  end.

(** A strategy after [init]: its registered indicator arrays and its
    [next], which sees the first [n] bars. *)
Record Strategy : Type := {
  indicators : list (list pyfloat);
  next_at : nat -> Position -> outcome (action * list diagnostic)
}.

(** Number of leading not-a-number entries of an indicator. *)
Fixpoint leading_nan (l : list pyfloat) : nat :=
  match l with
  | NaN :: l' => S (leading_nan l')
  | _ => 0%nat
  end.

Definition warmup (st : Strategy) : nat :=
  foldr Nat.max 0%nat (map leading_nan (indicators st)).

Definition record_decision (p : Position) (a : action)
    (out : list diagnostic) (s : SimulationState) : SimulationState :=
  {| bar_index := bar_index s;
     position := position s;
     trade_log := trade_log s;
     stdout := stdout s ++ out;
     history := history s ++ [{| seen := p; asked := a |}] |}.

Definition advance (s : SimulationState) : SimulationState :=
  {| bar_index := S (bar_index s);
     position := position s;
     trade_log := trade_log s;
     stdout := stdout s;
     history := history s |}.

(** Modelled from the spec: one iteration of the Simulation Loop of
    section 4.4.  Bars inside the warm-up are not shown to the strategy;
    otherwise [next] is called on the bars up to the current one, its
    order is applied, and the stop is checked against the bar. *)
Definition step (st : Strategy) (b : Bar) (s : SimulationState)
    : outcome SimulationState :=
  let i := bar_index s in
  if (i <? warmup st)%nat then Returned (advance (check_stop b s))
  else
    '(a, out) ← next_at st (S i) (position s);
    Returned (advance (check_stop b
                (apply_action b a (record_decision (position s) a out s)))).

Fixpoint loop (st : Strategy) (bars : list Bar) (s : SimulationState)
    : outcome SimulationState :=
  match bars with
  | [] => Returned s
  | b :: rest => s' ← step st b s; loop st rest s'
  end.

(** Entry orders that were placed while the strategy saw no position. *)
Definition entries (h : list Decision) : nat :=
  length (List.filter
    (fun d => is_entry (asked d) && negb (position_bool (seen d))) h).

Definition open_count (p : Position) : nat :=
  if position_bool p then 1%nat else 0%nat.

(** Every position that was opened and is not in the trade log is the one
    position now open. *)
Definition exclusive (s : SimulationState) : Prop :=
  entries (history s) = (length (trade_log s) + open_count (position s))%nat.

(** No decision taken while a position was open asked for an entry. *)
Definition signals_ignored (s : SimulationState) : Prop :=
  Forall (fun d => position_bool (seen d) = true -> is_entry (asked d) = false)
         (history s).

(** A run in which nothing has happened: no position, no trade, and no
    order asked for on any bar. *)
Definition idle (s : SimulationState) : Prop :=
  position s = flat /\ trade_log s = [] /\
  Forall (fun d => asked d = NoOrder) (history s).

(** A bar whose four prices are [c]. *)
Definition flat_bar (c : Q) : Bar :=
  {| bar_open := c; bar_high := c; bar_low := c; bar_close := c;
     bar_volume := 0 |}.

(** A strategy whose [next] returns on the first [N] bars and never asks
    for an entry while it sees a position. *)
Definition well_behaved (st : Strategy) (N : nat) : Prop :=
  forall n pos, (1 <= n <= N)%nat ->
    exists a out, next_at st n pos = Returned (a, out) /\
      (position_bool pos = true -> is_entry a = false).

(** Long and short exchanged. *)
Definition mirror_direction (d : Direction) : Direction :=
  match d with Long => Short | Short => Long | Flat => Flat end.

Definition mirror_position (p : Position) : Position :=
  {| direction := mirror_direction (direction p);
     entry_price := entry_price p;
     stop_loss := stop_loss p |}.

Definition mirror_action (a : action) : action :=
  match a with
  | Buy sl => Sell sl
  | Sell sl => Buy sl
  | NoOrder => NoOrder
  | ClosePosition => ClosePosition
  end.

End Engine.

Export Engine.

(** ** src/macd.py *)

Module MACD.

Record Params : Type := {
  fast_period : nat;
  slow_period : nat;
  signal_period : nat
}.

Definition defaults : Params :=
  {| fast_period := 12; slow_period := 26; signal_period := 9 |}.

(** [alpha = 2 / (n + 1)]. *)
Definition alpha (n : nat) : Q := 2 / (of_nat n + 1).

(** One iteration of the loop of [ema]:
    [ema_arr[i] = alpha * arr[i] + (1 - alpha) * ema_arr[i - 1]]. *)
Definition ema_body (arr : list Q) (a : Q) (acc : outcome (list Q)) (i : nat)
    : outcome (list Q) :=
  ema_arr ← acc;
  x ← index (arr !! i);
  prev ← index (ema_arr !! (i - 1)%nat);
  Returned (<[i := a * x + (1 - a) * prev]> ema_arr).

(** [MACDCrossover.ema(arr, n)] on a float array.  [np.empty_like] gives
    an array of the same length whose cells hold no meaningful value (here
    0); every cell is written before it is read. *)
Definition ema (arr : list Q) (n : nat) : outcome (list Q) :=
  let ema_arr := replicate (length arr) 0 in
  let a := alpha n in
  x0 ← index (arr !! 0%nat);
  let ema_arr := <[0%nat := x0]> ema_arr in
  foldl (ema_body arr a) (Returned ema_arr) (seq 1 (length arr - 1)).

(** The exponential moving average as the specification words it: the
    same length as the input, seeded with the first value, and
    [e[i] = alpha * x[i] + (1 - alpha) * e[i-1]] at every later index (up
    to index [k] in [ema_upto]). *)
Definition ema_upto (x : list Q) (n k : nat) (e : list Q) : Prop :=
  length e = length x /\
  e !! 0%nat = x !! 0%nat /\
  forall i xi prev, (S i <= k)%nat ->
    x !! S i = Some xi -> e !! i = Some prev ->
    e !! S i = Some (alpha n * xi + (1 - alpha n) * prev).

Definition is_EMA (x : list Q) (n : nat) (e : list Q) : Prop :=
  ema_upto x n (length x) e.







(** The second [init] (lines 70-73), the one in effect: both lines come
    from the [ta] package, which is not part of the repository. *)
Section Effective.

Variable ta_trend_macd : list Q -> nat -> nat -> outcome (list pyfloat).
Variable ta_trend_macd_signal :
  list Q -> nat -> nat -> nat -> outcome (list pyfloat).

Definition init (P : Params) (close : list Q)
    : outcome (list pyfloat * list pyfloat) :=
  macd_line ← ta_trend_macd close (fast_period P) (slow_period P);
  signal_line ← ta_trend_macd_signal close (fast_period P) (slow_period P)
                  (signal_period P);
  Returned (macd_line, signal_line).

End Effective.

(** [next] (lines 75-90; the shadowed lines 32-47 are the same text). *)
Definition next (macd_line signal_line : list pyfloat) (pos : Position)
    : outcome action :=
  if ((length macd_line <? 2) || (length signal_line <? 2))%nat
  then Returned NoOrder
  else
    m2 ← index (Py.idx_neg macd_line 2);
    s2 ← index (Py.idx_neg signal_line 2);
    m1 ← index (Py.idx_neg macd_line 1);
    s1 ← index (Py.idx_neg signal_line 1);
    if negb (position_bool pos) && flt m2 s2 && fgt m1 s1 then
      Returned (Buy None)
    else if negb (position_bool pos) && fgt m2 s2 && flt m1 s1 then
      Returned (Sell None)
    else if is_long pos && fgt m2 s2 && flt m1 s1 then
      Returned ClosePosition
    else if is_short pos && flt m2 s2 && fgt m1 s1 then
      Returned ClosePosition
    else Returned NoOrder.

(** The decisions [next] takes bar after bar on given lines when the
    position stays as it is: one per visible prefix. *)
Definition decisions (macd_line signal_line : list pyfloat) (pos : Position)
    : list (outcome action) :=
  map (fun k => next (take k macd_line) (take k signal_line) pos)
      (seq 1 (length macd_line)).

Definition is_close (d : outcome action) : bool :=
  match d with Returned ClosePosition => true | _ => false end.

Definition close_signals (ds : list (outcome action)) : nat :=
  length (List.filter is_close ds).

Definition is_entry_signal (d : outcome action) : bool :=
  match d with Returned a => is_entry a | Raised _ => false end.

Definition entry_signals (ds : list (outcome action)) : nat :=
  length (List.filter is_entry_signal ds).

End MACD.

(** ** The pandas operations used by src/main.py *)

Module Pandas.

(** [s.diff()]: the first entry is not-a-number. *)
Definition diff (s : list Q) : list pyfloat :=
  match s with
  | [] => []
  | _ :: rest => NaN :: zip_with (fun cur prev => Fin (cur - prev)) rest s
  end.

(** [s.where(cond, other)]: entries that fail [cond] are replaced. *)
Definition where_ (cond : pyfloat -> bool) (other : pyfloat)
    (s : list pyfloat) : list pyfloat :=
  map (fun x => if cond x then x else other) s.

(** The window of width [w] that ends at index [i]. *)
Definition window {A} (w i : nat) (s : list A) : list A :=
  drop (S i - w) (take (S i) s).

Definition fsum (l : list pyfloat) : pyfloat := foldr fadd (Fin 0) l.

(** [s.rolling(window=w, min_periods=mp).mean()]: the mean of the
    observations (entries that are not not-a-number) of each window, and
    not-a-number where the window holds fewer than [mp] of them. *)
Definition rolling_mean (w mp : nat) (s : list pyfloat) : list pyfloat :=
  map (fun i =>
         let obs := List.filter (fun x => negb (isna x)) (window w i s) in
         if (mp <=? length obs)%nat && (0 <? length obs)%nat
         then fdiv (fsum obs) (Fin (of_nat (length obs)))
         else NaN)
      (seq 0 (length s)).

End Pandas.

(** ** src/main.py *)

Module RSIMeanReversion.

Record Params : Type := {
  rsi_period : nat;
  oversold : Q;
  overbought : Q;
  exit_level : Q
}.

Definition defaults : Params :=
  {| rsi_period := 14; oversold := 30; overbought := 70; exit_level := 50 |}.

Definition delta (close : list Q) : list pyfloat := Pandas.diff close.

Definition gain (close : list Q) : list pyfloat :=
  Pandas.where_ (fun d => fgt d (Fin 0)) (Fin 0) (delta close).

Definition loss (close : list Q) : list pyfloat :=
  map fneg (Pandas.where_ (fun d => flt d (Fin 0)) (Fin 0) (delta close)).

Definition avg_gain (P : Params) (close : list Q) : list pyfloat :=
  Pandas.rolling_mean (rsi_period P) (rsi_period P) (gain close).

Definition avg_loss (P : Params) (close : list Q) : list pyfloat :=
  Pandas.rolling_mean (rsi_period P) (rsi_period P) (loss close).

Definition rs (P : Params) (close : list Q) : list pyfloat :=
  zip_with fdiv (avg_gain P close) (avg_loss P close).

Definition rsi_of_rs (r : pyfloat) : pyfloat :=
  fsub (Fin 100) (fdiv (Fin 100) (fadd (Fin 1) r)).

(** [init]: the array registered as [self.rsi]. *)
Definition init (P : Params) (close : list Q) : list pyfloat :=
  map rsi_of_rs (rs P close).

(** The RSI as the specification words it.  The gain and the loss of bar
    [j] are the positive and the negative part of the close-to-close
    change (bar 0 has neither); the averages are simple means over the
    [n] bars that end at bar [i]; the value is undefined (not-a-number)
    while fewer than [n] bars exist. *)
Definition price_at (close : list Q) (j : nat) : Q := default 0 (close !! j).

Definition gain_at (close : list Q) (j : nat) : Q :=
  match j with
  | O => 0
  | S j' =>
      let d := price_at close j - price_at close j' in
      if Qltb 0 d then d else 0
  end.

Definition loss_at (close : list Q) (j : nat) : Q :=
  match j with
  | O => 0
  | S j' =>
      let d := price_at close j - price_at close j' in
      if Qltb d 0 then - d else 0
  end.

Definition simple_mean (f : nat -> Q) (i n : nat) : Q :=
  foldr Qplus 0 (map f (seq (S i - n) n)) / of_nat n.

Definition rsi_formula (close : list Q) (n i : nat) : pyfloat :=
  if (S i <? n)%nat then NaN
  else
    let RS := fdiv (Fin (simple_mean (gain_at close) i n))
                   (Fin (simple_mean (loss_at close) i n)) in
    fsub (Fin 100) (fdiv (Fin 100) (fadd (Fin 1) RS)).

(** [next], on the indicator values up to the current bar. *)
Definition next (P : Params) (rsi : list pyfloat) (pos : Position)
    : outcome action :=
  cur ← index (Py.idx_neg rsi 1);
  if negb (position_bool pos) then
    if flt cur (Fin (oversold P)) then Returned (Buy None)
    else if fgt cur (Fin (overbought P)) then Returned (Sell None)
    else Returned NoOrder
  else
    if is_long pos && fgt cur (Fin (exit_level P)) then Returned ClosePosition
    else if is_short pos && flt cur (Fin (exit_level P)) then
      Returned ClosePosition
    else Returned NoOrder.

Definition strategy (P : Params) (close : list Q) : Strategy :=
  let rsi := init P close in
  {| indicators := [rsi];
     next_at := fun n pos => a ← next P (take n rsi) pos; Returned (a, []) |}.

(** [run_backtest]: [Backtest(data, RSIMeanReversion, ...).run()]. *)
Definition run_backtest (P : Params) (data : list Bar)
    : outcome SimulationState :=
  loop (strategy P (map bar_close data)) data (initial []).

End RSIMeanReversion.

(** ** src/trendfilteredrsi.py *)

Module TrendFilteredRSI.

Record Params : Type := {
  rsi_period : nat;
  ema_period : nat;
  atr_period : nat;
  oversold : Q;
  overbought : Q;
  exit_level : Q;
  stop_loss_atr_multiplier : Q
}.

Definition defaults : Params :=
  {| rsi_period := 14; ema_period := 200; atr_period := 14;
     oversold := 30; overbought := 70; exit_level := 50;
     stop_loss_atr_multiplier := 2 |}.

(** The defaults with every window set to [w] and the multiplier to [k]
    (parameters are class attributes and may be overridden per run). *)
Definition with_windows (w : nat) (k : Q) : Params :=
  {| rsi_period := w; ema_period := w; atr_period := w;
     oversold := 30; overbought := 70; exit_level := 50;
     stop_loss_atr_multiplier := k |}.

(** [max(self.rsi_period, self.ema_period, self.atr_period)]. *)
Definition largest_window (P : Params) : nat :=
  Py.max3 (rsi_period P) (ema_period P) (atr_period P).

(** The arrays [init] registers. *)
Record Indicators : Type := {
  rsi : list pyfloat;
  ema_long : list pyfloat;
  atr : list pyfloat
}.

(** The check that opens [init] (lines 49-52): a warning is printed and
    execution falls through to the indicator set-up. *)
Definition init_check (P : Params) (data : list Bar) : list diagnostic :=
  if (length data <? largest_window P)%nat then [WarnNotEnoughData] else [].

(** Modelled from the spec: [backtesting.lib.crossover] (not under src/),
    the sign change between the previous and the current bar; with no
    previous bar there is no crossing. *)
Definition crossover (s1 s2 : list pyfloat) : bool :=
  match Py.idx_neg s1 2, Py.idx_neg s2 2, Py.idx_neg s1 1, Py.idx_neg s2 1 with
  | Some a2, Some b2, Some a1, Some b1 => flt a2 b2 && fgt a1 b1
  | _, _, _, _ => false
  end.

(** A number used where a series is expected stands for the constant
    series. *)
Definition const_series (x : Q) : list pyfloat := [Fin x; Fin x].

(** [next] (lines 70-132), on the data and indicator values up to the
    current bar. *)
Definition next (P : Params) (close : list Q) (ind : Indicators)
    (pos : Position) : outcome (action * list diagnostic) :=
  if (length close <? largest_window P)%nat then Returned (NoOrder, [])
  else
    current_price ← index (Py.idx_neg close 1);
    current_rsi ← index (Py.idx_neg (rsi ind) 1);
    current_ema ← index (Py.idx_neg (ema_long ind) 1);
    current_atr ← index (Py.idx_neg (atr ind) 1);
    if isna current_rsi || isna current_ema || isna current_atr
       || fle current_atr (Fin 0)
    then Returned (NoOrder, [])
    else
      let k := Fin (stop_loss_atr_multiplier P) in
      let price := Fin current_price in
      let long_stop_loss := fsub price (fmul k current_atr) in
      let short_stop_loss := fadd price (fmul k current_atr) in
      let is_uptrend := fgt price current_ema in
      let is_downtrend := flt price current_ema in
      let is_oversold := flt current_rsi (Fin (oversold P)) in
      let is_overbought := fgt current_rsi (Fin (overbought P)) in
      let rsi_crossed_above_exit :=
        crossover (rsi ind) (const_series (exit_level P)) in
      let rsi_crossed_below_exit :=
        crossover (const_series (exit_level P)) (rsi ind) in
      if negb (position_bool pos) then
        if is_uptrend && is_oversold then
          if flt long_stop_loss price
          then Returned (Buy (Some long_stop_loss), [])
          else Returned (NoOrder, [WarnIllogicalSLBuy long_stop_loss current_price])
        else if is_downtrend && is_overbought then
          if fgt short_stop_loss price
          then Returned (Sell (Some short_stop_loss), [])
          else Returned (NoOrder, [WarnIllogicalSLSell short_stop_loss current_price])
        else Returned (NoOrder, [])
      else
        if is_long pos && rsi_crossed_above_exit then Returned (ClosePosition, [])
        else if is_short pos && rsi_crossed_below_exit then
          Returned (ClosePosition, [])
        else Returned (NoOrder, []).

Definition strategy (P : Params) (data : list Bar) (ind : Indicators)
    : Strategy :=
  {| indicators := [rsi ind; ema_long ind; atr ind];
     next_at := fun n pos =>
       next P (take n (map bar_close data))
         {| rsi := take n (rsi ind);
            ema_long := take n (ema_long ind);
            atr := take n (atr ind) |} pos |}.

Section Run.

(** The indicator functions of the [ta] package, which is not part of the
    repository: each call returns an array or raises. *)
Variable ta_momentum_rsi : list Q -> nat -> outcome (list pyfloat).
Variable ta_trend_ema_indicator : list Q -> nat -> outcome (list pyfloat).
Variable ta_volatility_average_true_range :
  list Q -> list Q -> list Q -> nat -> outcome (list pyfloat).

Definition init (P : Params) (data : list Bar)
    : outcome (Indicators * list diagnostic) :=
  let out := init_check P data in
  let close := map bar_close data in
  rsi ← ta_momentum_rsi close (rsi_period P);
  ema_long ← ta_trend_ema_indicator close (ema_period P);
  atr ← ta_volatility_average_true_range
          (map bar_high data) (map bar_low data) close (atr_period P);
  Returned ({| rsi := rsi; ema_long := ema_long; atr := atr |},
            out ++ [StrategyInitialized]).

(** [run_backtest] (lines 138-155): nothing is run on empty data. *)
Definition run_backtest (P : Params) (data : list Bar)
    : outcome SimulationState :=
  match data with
  | [] => Returned (initial [DataIsEmpty])
  | _ =>
      '(ind, out) ← init P data;
      loop (strategy P data ind) data (initial out)
  end.

End Run.

End TrendFilteredRSI.

(** * Properties *)

(** ** Comparisons *)

Section FloatFacts.

Lemma Qltb_lt (a b : Q) : Qltb a b = true <-> a < b.
Proof.
  unfold Qltb. rewrite negb_true_iff. split.
  - intros H. apply Qnot_le_lt. intros Hle.
    apply Qle_bool_iff in Hle. congruence.
  - intros H. destruct (Qle_bool b a) eqn:E; [|reflexivity].
    apply Qle_bool_iff in E. exfalso. exact (Qlt_not_le _ _ H E).
Qed.

Lemma Qltb_asym (a b : Q) : Qltb a b = true -> Qltb b a = false.
Proof.
  intros H. apply Qltb_lt in H.
  destruct (Qltb b a) eqn:E; [|reflexivity].
  apply Qltb_lt in E. exfalso.
  exact (Qlt_irrefl _ (Qlt_trans _ _ _ H E)).
Qed.

Lemma flt_asym (x y : pyfloat) : flt x y = true -> flt y x = false.
Proof.
  destruct x, y; simpl; try congruence. apply Qltb_asym.
Qed.

Lemma flt_nan_r (x : pyfloat) : flt x NaN = false.
Proof. destruct x; reflexivity. Qed.

Lemma flt_nan_l (y : pyfloat) : flt NaN y = false.
Proof. reflexivity. Qed.

Lemma is_zero_of_nat (n : nat) : (0 < n)%nat -> is_zero (of_nat n) = false.
Proof.
  intros H. unfold is_zero, of_nat.
  destruct (Qeq_bool (inject_Z (Z.of_nat n)) 0) eqn:E; [|reflexivity].
  apply Qeq_bool_iff in E. unfold Qeq in E. simpl in E. lia.
Qed.

End FloatFacts.

(** ** Negative indices *)

Lemma idx_neg_in_range {A} (l : list A) (k : nat) :
  (k <= length l)%nat -> Py.idx_neg l k = l !! (length l - k)%nat.
Proof.
  intros H. unfold Py.idx_neg.
  destruct (k <=? length l)%nat eqn:E; [reflexivity|].
  apply Nat.leb_gt in E. lia.
Qed.

Lemma idx_neg_last2 {A} (l : list A) (x y : A) :
  Py.idx_neg (l ++ [x; y]) 2 = Some x /\ Py.idx_neg (l ++ [x; y]) 1 = Some y.
Proof.
  split.
  - rewrite idx_neg_in_range by (rewrite length_app; cbn [length]; lia).
    rewrite length_app. cbn [length].
    rewrite lookup_app_r by lia.
    replace (length l + 2 - 2 - length l)%nat with 0%nat by lia. reflexivity.
  - rewrite idx_neg_in_range by (rewrite length_app; cbn [length]; lia).
    rewrite length_app. cbn [length].
    rewrite lookup_app_r by lia.
    replace (length l + 2 - 1 - length l)%nat with 1%nat by lia. reflexivity.
Qed.

(** ** The decision step of the trend-filtered strategy *)

(** Case analysis on the tests of a [next], outermost first. *)
Ltac split_tests :=
  repeat match goal with
         | |- context [if ?b then _ else _] =>
             lazymatch b with
             | context [if _ then _ else _] => fail
             | _ => let E := fresh "E" in destruct b eqn:E
             end
         end.

Ltac read_current H1 H2 H3 H4 :=
  rewrite H1, H2, H3, H4; cbn [index mbind outcome_bind].

(** C7.  While flat, the trend-filtered strategy buys only when the price
    is above the trend EMA and the RSI is below the oversold threshold,
    with the stop at price - k * ATR; it sells only when the price is
    below the trend EMA and the RSI is above the overbought threshold,
    with the stop at price + k * ATR; it never closes; when neither pair
    of conditions holds it places no order and prints nothing.  The
    default multiplier k is 2. *)
Theorem trend_entry_rule (P : TrendFilteredRSI.Params) (close : list Q)
    (ind : TrendFilteredRSI.Indicators) (pos : Position)
    (price : Q) (r e t : pyfloat) :
  position_bool pos = false ->
  Py.idx_neg close 1 = Some price ->
  Py.idx_neg (TrendFilteredRSI.rsi ind) 1 = Some r ->
  Py.idx_neg (TrendFilteredRSI.ema_long ind) 1 = Some e ->
  Py.idx_neg (TrendFilteredRSI.atr ind) 1 = Some t ->
  let k := Fin (TrendFilteredRSI.stop_loss_atr_multiplier P) in
  let uptrend_oversold :=
    fgt (Fin price) e && flt r (Fin (TrendFilteredRSI.oversold P)) in
  let downtrend_overbought :=
    flt (Fin price) e && fgt r (Fin (TrendFilteredRSI.overbought P)) in
  exists a out,
    TrendFilteredRSI.next P close ind pos = Returned (a, out) /\
    (forall sl, a = Buy sl ->
       uptrend_oversold = true /\
       sl = Some (fsub (Fin price) (fmul k t))) /\
    (forall sl, a = Sell sl ->
       downtrend_overbought = true /\
       sl = Some (fadd (Fin price) (fmul k t))) /\
    (a = ClosePosition -> False) /\
    (uptrend_oversold = false -> downtrend_overbought = false ->
       a = NoOrder /\ out = []) /\
    TrendFilteredRSI.stop_loss_atr_multiplier TrendFilteredRSI.defaults = 2.
Proof.
  intros Hflat Hp Hr He Ht k up down. subst k up down.
  unfold TrendFilteredRSI.next.
  destruct (length close <? TrendFilteredRSI.largest_window P)%nat.
  { eexists _, _. split; [reflexivity|].
    repeat split; intros; congruence. }
  read_current Hp Hr He Ht. rewrite Hflat. cbn [negb].
  split_tests; (eexists _, _; split; [reflexivity|]);
    repeat split; intros; congruence.
Qed.

Lemma trend_entry_rule_witness :
  exists a out,
    TrendFilteredRSI.next
      (TrendFilteredRSI.with_windows 1 2)
      [100]
      {| TrendFilteredRSI.rsi := [Fin 20];
         TrendFilteredRSI.ema_long := [Fin 90];
         TrendFilteredRSI.atr := [Fin 1] |} flat = Returned (a, out) /\
    (forall sl, a = Buy sl ->
       sl = Some (fsub (Fin 100) (fmul (Fin 2) (Fin 1)))).
Proof.
  destruct (trend_entry_rule
              (TrendFilteredRSI.with_windows 1 2)
              [100]
              {| TrendFilteredRSI.rsi := [Fin 20];
                 TrendFilteredRSI.ema_long := [Fin 90];
                 TrendFilteredRSI.atr := [Fin 1] |} flat
              100 (Fin 20) (Fin 90) (Fin 1)
              eq_refl eq_refl eq_refl eq_refl eq_refl)
    as (a & out & H & Hbuy & _).
  exists a, out. split; [exact H|].
  intros sl Hsl. exact (proj2 (Hbuy sl Hsl)).
Defined.

(** C8.  While flat, once the current values have passed the validity
    checks: when the long entry conditions hold but the computed stop is
    not below the price, [next] places no order, prints the warning for
    the rejected buy and returns; likewise when the short entry
    conditions hold but the computed stop is not above the price. *)
Theorem illogical_stop_rejected (P : TrendFilteredRSI.Params)
    (close : list Q) (ind : TrendFilteredRSI.Indicators) (pos : Position)
    (price : Q) (r e t : pyfloat) :
  position_bool pos = false ->
  (length close <? TrendFilteredRSI.largest_window P)%nat = false ->
  Py.idx_neg close 1 = Some price ->
  Py.idx_neg (TrendFilteredRSI.rsi ind) 1 = Some r ->
  Py.idx_neg (TrendFilteredRSI.ema_long ind) 1 = Some e ->
  Py.idx_neg (TrendFilteredRSI.atr ind) 1 = Some t ->
  isna r || isna e || isna t || fle t (Fin 0) = false ->
  let k := Fin (TrendFilteredRSI.stop_loss_atr_multiplier P) in
  let long_stop_loss := fsub (Fin price) (fmul k t) in
  let short_stop_loss := fadd (Fin price) (fmul k t) in
  (fgt (Fin price) e && flt r (Fin (TrendFilteredRSI.oversold P)) = true ->
   flt long_stop_loss (Fin price) = false ->
   TrendFilteredRSI.next P close ind pos =
     Returned (NoOrder, [WarnIllogicalSLBuy long_stop_loss price])) /\
  (flt (Fin price) e && fgt r (Fin (TrendFilteredRSI.overbought P)) = true ->
   fgt short_stop_loss (Fin price) = false ->
   TrendFilteredRSI.next P close ind pos =
     Returned (NoOrder, [WarnIllogicalSLSell short_stop_loss price])).
Proof.
  intros Hflat Hlen Hp Hr He Ht Hvalid k long_sl short_sl.
  subst k long_sl short_sl.
  unfold TrendFilteredRSI.next. rewrite Hlen.
  read_current Hp Hr He Ht. rewrite Hvalid, Hflat. cbn [negb].
  split.
  - intros Hsig Hsl. rewrite Hsig, Hsl. reflexivity.
  - intros Hsig Hsl.
    apply andb_true_iff in Hsig as [Hdown Hob].
    unfold fgt at 1. rewrite (flt_asym _ _ Hdown). cbn [andb].
    rewrite Hdown, Hob. cbn [andb]. rewrite Hsl. reflexivity.
Qed.

Lemma illogical_stop_rejected_witness :
  TrendFilteredRSI.next
    (TrendFilteredRSI.with_windows 1 0)
    [100]
    {| TrendFilteredRSI.rsi := [Fin 20];
       TrendFilteredRSI.ema_long := [Fin 90];
       TrendFilteredRSI.atr := [Fin 1] |} flat
  = Returned (NoOrder,
              [WarnIllogicalSLBuy (fsub (Fin 100) (fmul (Fin 0) (Fin 1))) 100]).
Proof.
  apply (proj1 (illogical_stop_rejected
           (TrendFilteredRSI.with_windows 1 0)
           [100]
           {| TrendFilteredRSI.rsi := [Fin 20];
              TrendFilteredRSI.ema_long := [Fin 90];
              TrendFilteredRSI.atr := [Fin 1] |} flat
           100 (Fin 20) (Fin 90) (Fin 1)
           eq_refl eq_refl eq_refl eq_refl eq_refl eq_refl eq_refl));
    reflexivity.
Defined.

Lemma rsi_next_nan (P : RSIMeanReversion.Params) (rsi : list pyfloat)
    (pos : Position) :
  Py.idx_neg rsi 1 = Some NaN ->
  RSIMeanReversion.next P rsi pos = Returned NoOrder.
Proof.
  intros H. unfold RSIMeanReversion.next. rewrite H.
  cbn [index mbind outcome_bind]. unfold fgt.
  rewrite !flt_nan_l, !flt_nan_r, !andb_false_r.
  destruct (negb (position_bool pos)); reflexivity.
Qed.

(** C9.  A bar whose current indicator value is not-a-number is skipped:
    [next] returns without an order (and without raising) in the RSI
    mean-reversion strategy when the current RSI is not-a-number, in the
    trend-filtered strategy when the current RSI, trend EMA or ATR is,
    and in the MACD strategy when any of the four values it compares is. *)
Theorem nan_indicator_skips_bar :
  (forall (P : RSIMeanReversion.Params) (rsi : list pyfloat) (pos : Position),
     Py.idx_neg rsi 1 = Some NaN ->
     RSIMeanReversion.next P rsi pos = Returned NoOrder) /\
  (forall (P : TrendFilteredRSI.Params) (close : list Q)
          (ind : TrendFilteredRSI.Indicators) (pos : Position)
          (price : Q) (r e t : pyfloat),
     Py.idx_neg close 1 = Some price ->
     Py.idx_neg (TrendFilteredRSI.rsi ind) 1 = Some r ->
     Py.idx_neg (TrendFilteredRSI.ema_long ind) 1 = Some e ->
     Py.idx_neg (TrendFilteredRSI.atr ind) 1 = Some t ->
     isna r || isna e || isna t = true ->
     TrendFilteredRSI.next P close ind pos = Returned (NoOrder, [])) /\
  (forall (macd_line signal_line : list pyfloat) (pos : Position)
          (m2 s2 m1 s1 : pyfloat),
     Py.idx_neg macd_line 2 = Some m2 ->
     Py.idx_neg signal_line 2 = Some s2 ->
     Py.idx_neg macd_line 1 = Some m1 ->
     Py.idx_neg signal_line 1 = Some s1 ->
     isna m2 || isna s2 || isna m1 || isna s1 = true ->
     MACD.next macd_line signal_line pos = Returned NoOrder).
Proof.
  split; [|split].
  - exact rsi_next_nan.
  - intros P close ind pos price r e t Hp Hr He Ht Hnan.
    unfold TrendFilteredRSI.next.
    destruct (length close <? TrendFilteredRSI.largest_window P)%nat;
      [reflexivity|].
    read_current Hp Hr He Ht. rewrite Hnan. reflexivity.
  - intros m s pos m2 s2 m1 s1 Hm2 Hs2 Hm1 Hs1 Hnan.
    unfold MACD.next.
    destruct ((length m <? 2)%nat || (length s <? 2)%nat); [reflexivity|].
    rewrite Hm2, Hs2, Hm1, Hs1. cbn [index mbind outcome_bind].
    assert (Hcmp : flt m2 s2 && fgt m1 s1 = false /\
                   fgt m2 s2 && flt m1 s1 = false).
    { unfold fgt.
      destruct m2, s2, m1, s1; cbn [isna orb] in Hnan; try discriminate;
        cbn [flt]; rewrite ?andb_false_r; split; reflexivity. }
    destruct Hcmp as [H1 H2].
    rewrite <- !andb_assoc, H1, H2, !andb_false_r. reflexivity.
Qed.

Lemma nan_indicator_skips_bar_witness :
  RSIMeanReversion.next RSIMeanReversion.defaults [Fin 40; NaN] flat
    = Returned NoOrder /\
  TrendFilteredRSI.next (TrendFilteredRSI.with_windows 1 2) [100]
    {| TrendFilteredRSI.rsi := [NaN];
       TrendFilteredRSI.ema_long := [Fin 90];
       TrendFilteredRSI.atr := [Fin 1] |} flat = Returned (NoOrder, []) /\
  MACD.next [Fin 1; NaN] [Fin 2; Fin 0] flat = Returned NoOrder.
Proof.
  destruct nan_indicator_skips_bar as (H1 & H2 & H3).
  split; [|split].
  - apply H1. reflexivity.
  - apply (H2 _ _ _ _ 100 NaN (Fin 90) (Fin 1)); reflexivity.
  - apply (H3 _ _ _ (Fin 1) (Fin 2) NaN (Fin 0)); reflexivity.
Defined.

(** ** The MACD decision step *)

Lemma macd_next_last_two (pm ps : list pyfloat) (m2 m1 s2 s1 : pyfloat)
    (pos : Position) :
  MACD.next (pm ++ [m2; m1]) (ps ++ [s2; s1]) pos =
  Returned
    (if negb (position_bool pos) && flt m2 s2 && fgt m1 s1 then Buy None
     else if negb (position_bool pos) && fgt m2 s2 && flt m1 s1 then Sell None
     else if is_long pos && fgt m2 s2 && flt m1 s1 then ClosePosition
     else if is_short pos && flt m2 s2 && fgt m1 s1 then ClosePosition
     else NoOrder).
Proof.
  unfold MACD.next.
  destruct (idx_neg_last2 pm m2 m1) as [-> ->].
  destruct (idx_neg_last2 ps s2 s1) as [-> ->].
  rewrite !length_app. cbn [length].
  replace (length pm + 2 <? 2)%nat with false
    by (symmetry; apply Nat.ltb_ge; lia).
  replace (length ps + 2 <? 2)%nat with false
    by (symmetry; apply Nat.ltb_ge; lia).
  cbn [orb index mbind outcome_bind].
  split_tests; reflexivity.
Qed.

Lemma take_two_more {A} (l : list A) (k : nat) (x y : A) :
  l !! k = Some x -> l !! S k = Some y ->
  take (S (S k)) l = take k l ++ [x; y].
Proof.
  intros Hx Hy.
  rewrite (take_S_r l (S k) y Hy), (take_S_r l k x Hx), <- app_assoc.
  reflexivity.
Qed.

Lemma long_flags (pos : Position) :
  is_long pos = true -> position_bool pos = true /\ is_short pos = false.
Proof.
  unfold is_long, position_bool, is_short.
  destruct (direction pos); intros H; try discriminate; split; reflexivity.
Qed.

Lemma macd_next_long (m s : list pyfloat) (pos : Position) (k : nat)
    (m2 s2 m1 s1 : pyfloat) :
  is_long pos = true ->
  m !! k = Some m2 -> s !! k = Some s2 ->
  m !! S k = Some m1 -> s !! S k = Some s1 ->
  MACD.next (take (S (S k)) m) (take (S (S k)) s) pos =
  Returned (if fgt m2 s2 && flt m1 s1 then ClosePosition else NoOrder).
Proof.
  intros Hlong Hm2 Hs2 Hm1 Hs1.
  rewrite (take_two_more m k m2 m1 Hm2 Hm1), (take_two_more s k s2 s1 Hs2 Hs1).
  rewrite macd_next_last_two.
  destruct (long_flags pos Hlong) as [-> ->]. rewrite Hlong.
  cbn [negb andb]. destruct (fgt m2 s2 && flt m1 s1); reflexivity.
Qed.

Lemma filter_none {A} (f : A -> bool) (l : list A) :
  (forall x, In x l -> f x = false) -> List.filter f l = [].
Proof.
  induction l as [|a l IH]; intros H; [reflexivity|].
  cbn [List.filter]. rewrite (H a (or_introl eq_refl)).
  apply IH. intros x Hx. apply H. right. exact Hx.
Qed.

Lemma filter_seq_unique (f : nat -> bool) (n a c : nat) :
  (a <= c < a + n)%nat ->
  (forall k, (a <= k < a + n)%nat -> f k = true <-> k = c) ->
  length (List.filter f (seq a n)) = 1%nat.
Proof.
  revert a. induction n as [|n IH]; intros a Hc Hf; [lia|].
  cbn [seq List.filter].
  destruct (Nat.eq_dec a c) as [->|Hne].
  - rewrite (proj2 (Hf c ltac:(lia)) eq_refl).
    rewrite filter_none; [reflexivity|].
    intros x Hx. apply in_seq in Hx.
    destruct (f x) eqn:E; [|reflexivity].
    apply Hf in E; lia.
  - destruct (f a) eqn:E.
    + apply Hf in E; lia.
    + apply IH; [lia|]. intros k Hk. apply Hf. lia.
Qed.

Lemma macd_next_short_history (m s : list pyfloat) (pos : Position) :
  (length m < 2)%nat \/ (length s < 2)%nat ->
  MACD.next m s pos = Returned NoOrder.
Proof.
  intros H. unfold MACD.next.
  replace ((length m <? 2)%nat || (length s <? 2)%nat) with true;
    [reflexivity|].
  symmetry. apply orb_true_iff.
  destruct H as [H|H]; [left|right]; apply Nat.ltb_lt; exact H.
Qed.

Lemma macd_close_at_crossing (m s : list pyfloat) (pos : Position) (p : nat) :
  is_long pos = true ->
  length s = length m ->
  (1 <= p < length m)%nat ->
  (forall i x y, (i < p)%nat ->
     m !! i = Some x -> s !! i = Some y -> fgt x y = true) ->
  (forall i x y, (p <= i)%nat ->
     m !! i = Some x -> s !! i = Some y -> flt x y = true) ->
  forall k, (1 <= k < 1 + length m)%nat ->
    MACD.is_close (MACD.next (take k m) (take k s) pos) = true <-> k = S p.
Proof.
  intros Hlong Hlen Hp Habove Hbelow k Hk.
  destruct k as [|[|j]]; [lia| |].
  - rewrite macd_next_short_history
      by (left; rewrite length_take; lia).
    cbn [MACD.is_close]. split; [discriminate|lia].
  - destruct (lookup_lt_is_Some_2 m j ltac:(lia)) as [m2 Hm2].
    destruct (lookup_lt_is_Some_2 s j ltac:(lia)) as [s2 Hs2].
    destruct (lookup_lt_is_Some_2 m (S j) ltac:(lia)) as [m1 Hm1].
    destruct (lookup_lt_is_Some_2 s (S j) ltac:(lia)) as [s1 Hs1].
    rewrite (macd_next_long m s pos j m2 s2 m1 s1 Hlong Hm2 Hs2 Hm1 Hs1).
    destruct (le_lt_dec p j) as [Hj|Hj].
    + pose proof (Hbelow j m2 s2 Hj Hm2 Hs2) as Hb.
      unfold fgt at 1. rewrite (flt_asym _ _ Hb). cbn [andb MACD.is_close].
      split; [discriminate|lia].
    + rewrite (Habove j m2 s2 Hj Hm2 Hs2). cbn [andb].
      destruct (le_lt_dec p (S j)) as [Hj'|Hj'].
      * rewrite (Hbelow (S j) m1 s1 Hj' Hm1 Hs1). cbn [MACD.is_close].
        split; [lia|reflexivity].
      * pose proof (Habove (S j) m1 s1 Hj' Hm1 Hs1) as Ha.
        unfold fgt in Ha. rewrite (flt_asym _ _ Ha). cbn [MACD.is_close].
        split; [discriminate|lia].
Qed.

(** C6.  The MACD [next] emits nothing when either line has fewer than
    two values; otherwise its decision is a function of the values at the
    previous and the current bar only, whatever came before.  When the
    MACD line is above the signal line on bars [0..p-1] and below it from
    bar [p] on, the decisions taken bar after bar while long contain
    exactly one close, the one taken at bar [p]. *)
Theorem macd_crossover_detection (macd_line signal_line : list pyfloat)
    (pos : Position) :
  ((length macd_line < 2)%nat \/ (length signal_line < 2)%nat ->
   MACD.next macd_line signal_line pos = Returned NoOrder) /\
  (forall pm ps m2 m1 s2 s1,
     macd_line = pm ++ [m2; m1] -> signal_line = ps ++ [s2; s1] ->
     MACD.next macd_line signal_line pos = MACD.next [m2; m1] [s2; s1] pos) /\
  (forall p : nat,
     is_long pos = true ->
     length signal_line = length macd_line ->
     (1 <= p < length macd_line)%nat ->
     (forall i x y, (i < p)%nat ->
        macd_line !! i = Some x -> signal_line !! i = Some y ->
        fgt x y = true) ->
     (forall i x y, (p <= i)%nat ->
        macd_line !! i = Some x -> signal_line !! i = Some y ->
        flt x y = true) ->
     MACD.close_signals (MACD.decisions macd_line signal_line pos) = 1%nat /\
     MACD.decisions macd_line signal_line pos !! p
       = Some (Returned ClosePosition)).
Proof.
  split; [apply macd_next_short_history|]. split.
  - intros pm ps m2 m1 s2 s1 -> ->.
    rewrite macd_next_last_two.
    symmetry. exact (macd_next_last_two [] [] m2 m1 s2 s1 pos).
  - intros p Hlong Hlen Hp Habove Hbelow.
    pose proof (macd_close_at_crossing macd_line signal_line pos p
                  Hlong Hlen Hp Habove Hbelow) as Hiff.
    split.
    + unfold MACD.close_signals, MACD.decisions.
      rewrite filter_map_swap, length_map.
      apply (filter_seq_unique _ _ 1 (S p)); [lia|].
      intros k Hk. apply Hiff. lia.
    + unfold MACD.decisions.
      change (map ?f ?l) with (f <$> l).
      rewrite list_lookup_fmap, lookup_seq_lt by lia.
      cbn [fmap option_fmap option_map].
      change (1 + p)%nat with (S p).
      pose proof (proj2 (Hiff (S p) ltac:(lia)) eq_refl) as Hc.
      destruct (MACD.next (take (S p) macd_line) (take (S p) signal_line) pos)
        as [[| | |]|]; try discriminate. reflexivity.
Qed.

Lemma macd_crossover_detection_witness :
  MACD.close_signals
    (MACD.decisions [Fin 3; Fin 2; Fin 0; Fin (-1)]
                    [Fin 1; Fin 1; Fin 1; Fin 1]
       {| direction := Long; entry_price := 1; stop_loss := None |}) = 1%nat /\
  MACD.decisions [Fin 3; Fin 2; Fin 0; Fin (-1)] [Fin 1; Fin 1; Fin 1; Fin 1]
       {| direction := Long; entry_price := 1; stop_loss := None |} !! 2%nat
    = Some (Returned ClosePosition).
Proof.
  apply (proj2 (proj2 (macd_crossover_detection
            [Fin 3; Fin 2; Fin 0; Fin (-1)] [Fin 1; Fin 1; Fin 1; Fin 1]
            {| direction := Long; entry_price := 1; stop_loss := None |}))
          2%nat).
  - reflexivity.
  - reflexivity.
  - cbn [length]. lia.
  - intros [|[|i]] x y Hi Hx Hy; [| |lia];
      cbn in Hx, Hy; injection Hx as <-; injection Hy as <-; reflexivity.
  - intros [|[|[|[|i]]]] x y Hi Hx Hy; try lia;
      cbn in Hx, Hy; try discriminate;
      injection Hx as <-; injection Hy as <-; reflexivity.
Defined.

(** ** The exponential moving average of src/macd.py *)

Lemma ema_loop (arr e0 : list Q) (n k : nat) :
  (k < length arr)%nat ->
  MACD.ema_upto arr n 0 e0 ->
  exists e, foldl (MACD.ema_body arr (MACD.alpha n)) (Returned e0) (seq 1 k)
            = Returned e /\ MACD.ema_upto arr n k e.
Proof.
  intros Hk H0. induction k as [|k IH].
  - exists e0. split; [reflexivity|exact H0].
  - destruct (IH ltac:(lia)) as (e & Hfold & Hlen & Hseed & Hrec).
    rewrite seq_S, foldl_app, Hfold. cbn [foldl].
    destruct (lookup_lt_is_Some_2 arr (S k) ltac:(lia)) as [x Hx].
    destruct (lookup_lt_is_Some_2 e k ltac:(lia)) as [prev Hprev].
    unfold MACD.ema_body. cbn [mbind outcome_bind].
    change (1 + k)%nat with (S k).
    rewrite Hx. cbn [index].
    replace (S k - 1)%nat with k by lia. rewrite Hprev. cbn [index].
    eexists. split; [reflexivity|].
    split; [|split].
    + rewrite length_insert. exact Hlen.
    + rewrite list_lookup_insert_ne by lia. exact Hseed.
    + intros i xi p Hi Hxi Hp.
      destruct (Nat.eq_dec i k) as [->|Hne].
      * rewrite list_lookup_insert_ne in Hp by lia.
        rewrite list_lookup_insert_eq by lia.
        congruence.
      * rewrite list_lookup_insert_ne in Hp by lia.
        rewrite list_lookup_insert_ne by lia.
        apply Hrec; [lia|exact Hxi|exact Hp].
Qed.

Lemma ema_upto_weaken (x e : list Q) (n k : nat) :
  MACD.ema_upto x n (length x - 1) e -> MACD.ema_upto x n k e.
Proof.
  intros (Hlen & Hseed & Hrec). split; [exact Hlen|]. split; [exact Hseed|].
  intros i xi prev _ Hxi Hprev. apply Hrec; [|exact Hxi|exact Hprev].
  apply lookup_lt_Some in Hxi. lia.
Qed.

(** [ema] returns on every non-empty array, and what it returns is the
    exponential moving average. *)
Lemma ema_correct (arr : list Q) (n : nat) :
  arr <> [] ->
  exists e, MACD.ema arr n = Returned e /\ MACD.is_EMA arr n e.
Proof.
  intros Hne. destruct arr as [|x0 rest]; [congruence|].
  unfold MACD.ema. cbn [lookup list_lookup index mbind outcome_bind].
  destruct (ema_loop (x0 :: rest) (<[0%nat:=x0]> (replicate (length (x0 :: rest)) 0))
              n (length (x0 :: rest) - 1)) as (e & Hfold & He).
  - cbn [length]. lia.
  - split; [|split].
    + rewrite length_insert, length_replicate. reflexivity.
    + reflexivity.
    + intros i xi prev Hi. lia.
  - exists e. split; [exact Hfold|].
    apply ema_upto_weaken. exact He.
Qed.





(** ** The RSI of src/main.py *)

Section RSI.

Import RSIMeanReversion.

Lemma delta_lookup_0 (close : list Q) :
  close <> [] -> delta close !! 0%nat = Some NaN.
Proof. destruct close; [congruence|reflexivity]. Qed.

Lemma delta_lookup_S (close : list Q) (j : nat) :
  (S j < length close)%nat ->
  delta close !! S j
    = Some (Fin (price_at close (S j) - price_at close j)).
Proof.
  intros H. unfold delta, Pandas.diff, price_at.
  destruct close as [|c0 rest]; [cbn in H; lia|].
  change ((NaN :: ?l) !! S j) with (l !! j).
  rewrite lookup_zip_with.
  change ((c0 :: rest) !! S j) with (rest !! j).
  destruct (lookup_lt_is_Some_2 rest j ltac:(cbn in H; lia)) as [x Hx].
  destruct (lookup_lt_is_Some_2 (c0 :: rest) j ltac:(cbn in H |- *; lia))
    as [y Hy].
  rewrite Hx, Hy. reflexivity.
Qed.

Lemma delta_length (close : list Q) : length (delta close) = length close.
Proof.
  unfold delta, Pandas.diff. destruct close as [|c0 rest]; [reflexivity|].
  cbn [length]. rewrite length_zip_with. cbn [length]. lia.
Qed.

Lemma gain_lookup (close : list Q) (j : nat) :
  (j < length close)%nat ->
  gain close !! j = Some (Fin (gain_at close j)).
Proof.
  intros H. unfold gain, Pandas.where_.
  change (map ?f ?l) with (f <$> l). rewrite list_lookup_fmap.
  destruct j as [|j].
  - rewrite delta_lookup_0 by (destruct close; [cbn in H; lia|congruence]).
    reflexivity.
  - rewrite delta_lookup_S by exact H.
    cbn [fmap option_fmap option_map gain_at fgt flt].
    destruct (Qltb 0 (price_at close (S j) - price_at close j)); reflexivity.
Qed.

Lemma loss_lookup (close : list Q) (j : nat) :
  (j < length close)%nat ->
  loss close !! j = Some (Fin (loss_at close j)).
Proof.
  intros H. unfold loss, Pandas.where_.
  change (map ?f ?l) with (f <$> l). rewrite !list_lookup_fmap.
  destruct j as [|j].
  - rewrite delta_lookup_0 by (destruct close; [cbn in H; lia|congruence]).
    reflexivity.
  - rewrite delta_lookup_S by exact H.
    cbn [fmap option_fmap option_map loss_at fgt flt].
    destruct (Qltb (price_at close (S j) - price_at close j) 0); reflexivity.
Qed.

Lemma gain_length (close : list Q) : length (gain close) = length close.
Proof. unfold gain, Pandas.where_. rewrite length_map. apply delta_length. Qed.

Lemma loss_length (close : list Q) : length (loss close) = length close.
Proof.
  unfold loss, Pandas.where_. rewrite !length_map. apply delta_length.
Qed.

(** A series without not-a-number entries, described index by index. *)
Lemma finite_series (s : list pyfloat) (f : nat -> Q) :
  (forall j, (j < length s)%nat -> s !! j = Some (Fin (f j))) ->
  s = (fun j => Fin (f j)) <$> seq 0 (length s).
Proof.
  intros H. apply list_eq. intros j.
  rewrite list_lookup_fmap.
  destruct (le_lt_dec (length s) j) as [Hj|Hj].
  - rewrite (lookup_ge_None_2 s j Hj).
    rewrite (lookup_ge_None_2 (seq 0 (length s)) j)
      by (rewrite length_seq; exact Hj).
    reflexivity.
  - rewrite (H j Hj), lookup_seq_lt by exact Hj. reflexivity.
Qed.

Lemma window_finite (f : nat -> Q) (L w i : nat) :
  (i < L)%nat ->
  Pandas.window w i ((fun j => Fin (f j)) <$> seq 0 L)
  = (fun j => Fin (f j)) <$> seq (S i - w) (Nat.min w (S i)).
Proof.
  intros Hi. unfold Pandas.window.
  rewrite <- fmap_take, <- fmap_drop, take_seq, drop_seq.
  f_equal. f_equal; lia.
Qed.

Lemma filter_finite (f : nat -> Q) (l : list nat) :
  List.filter (fun x => negb (isna x)) ((fun j => Fin (f j)) <$> l)
  = (fun j => Fin (f j)) <$> l.
Proof.
  induction l as [|a l IH]; [reflexivity|].
  cbn [fmap list_fmap List.filter isna negb]. f_equal. exact IH.
Qed.

Lemma fsum_finite (f : nat -> Q) (l : list nat) :
  Pandas.fsum ((fun j => Fin (f j)) <$> l) = Fin (foldr Qplus 0 (map f l)).
Proof.
  induction l as [|a l IH]; [reflexivity|].
  unfold Pandas.fsum in *. cbn [fmap list_fmap foldr map].
  change (list_fmap nat pyfloat (fun j => Fin (f j)) l)
    with ((fun j => Fin (f j)) <$> l).
  rewrite IH. reflexivity.
Qed.

Lemma rolling_mean_finite (s : list pyfloat) (f : nat -> Q) (n i : nat) :
  (0 < n)%nat -> (i < length s)%nat ->
  (forall j, (j < length s)%nat -> s !! j = Some (Fin (f j))) ->
  Pandas.rolling_mean n n s !! i
  = Some (if (S i <? n)%nat then NaN else Fin (simple_mean f i n)).
Proof.
  intros Hn Hi Hs. unfold Pandas.rolling_mean.
  change (map ?g ?l) with (g <$> l).
  rewrite list_lookup_fmap, lookup_seq_lt by exact Hi.
  cbn [fmap option_fmap option_map]. f_equal.
  change (0 + i)%nat with i.
  assert (Hw : Pandas.window n i s
               = (fun j => Fin (f j)) <$> seq (S i - n) (Nat.min n (S i))).
  { rewrite (finite_series s f Hs). apply window_finite. exact Hi. }
  rewrite Hw, filter_finite, length_fmap, length_seq, fsum_finite.
  destruct (S i <? n)%nat eqn:E.
  - apply Nat.ltb_lt in E.
    replace (n <=? Nat.min n (S i))%nat with false
      by (symmetry; apply Nat.leb_gt; lia).
    reflexivity.
  - apply Nat.ltb_ge in E.
    replace (Nat.min n (S i)) with n by lia.
    rewrite Nat.leb_refl.
    replace (0 <? n)%nat with true by (symmetry; apply Nat.ltb_lt; lia).
    cbn [andb]. unfold fdiv. rewrite (is_zero_of_nat n Hn).
    reflexivity.
Qed.

Lemma init_lookup (P : Params) (close : list Q) (i : nat) (g l : pyfloat) :
  avg_gain P close !! i = Some g ->
  avg_loss P close !! i = Some l ->
  init P close !! i = Some (rsi_of_rs (fdiv g l)).
Proof.
  intros Hg Hl. unfold init, rs.
  change (map ?f ?x) with (f <$> x).
  rewrite list_lookup_fmap, lookup_zip_with, Hg, Hl. reflexivity.
Qed.

Lemma init_length (P : Params) (close : list Q) :
  length (init P close) = length close.
Proof.
  unfold init, rs, avg_gain, avg_loss, Pandas.rolling_mean.
  rewrite length_map, length_zip_with, !length_map, !length_seq.
  rewrite gain_length, loss_length. lia.
Qed.

Lemma init_formula (P : Params) (close : list Q) (i : nat) :
  (0 < rsi_period P)%nat -> (i < length close)%nat ->
  init P close !! i = Some (rsi_formula close (rsi_period P) i).
Proof.
  intros Hn Hi.
  rewrite (init_lookup P close i
             (if (S i <? rsi_period P)%nat then NaN
              else Fin (simple_mean (gain_at close) i (rsi_period P)))
             (if (S i <? rsi_period P)%nat then NaN
              else Fin (simple_mean (loss_at close) i (rsi_period P)))).
  - unfold rsi_formula. destruct (S i <? rsi_period P)%nat; reflexivity.
  - apply rolling_mean_finite; [exact Hn|rewrite gain_length; exact Hi|].
    intros j Hj. apply gain_lookup. rewrite gain_length in Hj. exact Hj.
  - apply rolling_mean_finite; [exact Hn|rewrite loss_length; exact Hi|].
    intros j Hj. apply loss_lookup. rewrite loss_length in Hj. exact Hj.
Qed.

End RSI.

(** C3.  The RSI array computed by [RSIMeanReversion.init] is aligned
    with the close series; at every index it equals 100 - 100/(1 + RS),
    RS being the simple mean of the gains over the last [n] bars divided
    by the simple mean of the losses over the same bars, and it is
    not-a-number at every index where fewer than [n] bars exist. *)
Theorem rsi_is_simple_average_formula (P : RSIMeanReversion.Params)
    (close : list Q) (i : nat) :
  (0 < RSIMeanReversion.rsi_period P)%nat ->
  (i < length close)%nat ->
  length (RSIMeanReversion.init P close) = length close /\
  RSIMeanReversion.init P close !! i
    = Some (RSIMeanReversion.rsi_formula close
              (RSIMeanReversion.rsi_period P) i) /\
  ((S i < RSIMeanReversion.rsi_period P)%nat ->
   RSIMeanReversion.init P close !! i = Some NaN) /\
  ((RSIMeanReversion.rsi_period P <= S i)%nat ->
   RSIMeanReversion.init P close !! i
     = Some (fsub (Fin 100)
               (fdiv (Fin 100)
                  (fadd (Fin 1)
                     (fdiv
                        (Fin (RSIMeanReversion.simple_mean
                                (RSIMeanReversion.gain_at close) i
                                (RSIMeanReversion.rsi_period P)))
                        (Fin (RSIMeanReversion.simple_mean
                                (RSIMeanReversion.loss_at close) i
                                (RSIMeanReversion.rsi_period P)))))))).
Proof.
  intros Hn Hi.
  split; [apply init_length|].
  pose proof (init_formula P close i Hn Hi) as H.
  split; [exact H|]. split.
  - intros Hlt. rewrite H. unfold RSIMeanReversion.rsi_formula.
    replace (S i <? RSIMeanReversion.rsi_period P)%nat with true
      by (symmetry; apply Nat.ltb_lt; exact Hlt).
    reflexivity.
  - intros Hge. rewrite H. unfold RSIMeanReversion.rsi_formula.
    replace (S i <? RSIMeanReversion.rsi_period P)%nat with false
      by (symmetry; apply Nat.ltb_ge; exact Hge).
    reflexivity.
Qed.

Lemma rsi_is_simple_average_formula_witness :
  RSIMeanReversion.init RSIMeanReversion.defaults [1; 2; 3] !! 1%nat
    = Some NaN.
Proof.
  apply (proj1 (proj2 (proj2 (rsi_is_simple_average_formula
           RSIMeanReversion.defaults [1; 2; 3] 1
           ltac:(cbn; lia) ltac:(cbn; lia)))));
    cbn; lia.
Defined.

(** C4.  Where the rolling average loss is zero and the rolling average
    gain is positive, the RSI computed by [RSIMeanReversion.init] is the
    number 100: the quotient by zero is an infinity, which the formula
    maps to 100, and nothing is raised. *)
Theorem rsi_pure_uptrend_is_100 (P : RSIMeanReversion.Params)
    (close : list Q) (i : nat) (g l : Q) :
  RSIMeanReversion.avg_gain P close !! i = Some (Fin g) ->
  RSIMeanReversion.avg_loss P close !! i = Some (Fin l) ->
  0 < g -> l == 0 ->
  RSIMeanReversion.init P close !! i = Some (Fin 100).
Proof.
  intros Hg Hl Hpos Hzero.
  rewrite (init_lookup P close i _ _ Hg Hl). f_equal.
  cbn [fdiv]. unfold is_zero.
  rewrite (Qeq_eq_bool _ _ Hzero).
  replace (Qeq_bool g 0) with false.
  - rewrite (proj2 (Qltb_lt 0 g) Hpos). reflexivity.
  - symmetry. destruct (Qeq_bool g 0) eqn:E; [|reflexivity].
    apply Qeq_bool_iff in E. rewrite E in Hpos.
    exfalso. exact (Qlt_irrefl _ Hpos).
Qed.

Lemma rsi_pure_uptrend_is_100_witness :
  RSIMeanReversion.init
    {| RSIMeanReversion.rsi_period := 3; RSIMeanReversion.oversold := 30;
       RSIMeanReversion.overbought := 70; RSIMeanReversion.exit_level := 50 |}
    [1; 2; 3; 4] !! 3%nat = Some (Fin 100).
Proof.
  apply (rsi_pure_uptrend_is_100 _ [1; 2; 3; 4] 3
           ((1 + (1 + (1 + 0))) / of_nat 3)
           ((- 0 + (- 0 + (- 0 + 0))) / of_nat 3)).
  - reflexivity.
  - reflexivity.
  - reflexivity.
  - reflexivity.
Defined.

(** ** The simulation loop keeps a single position *)

Lemma entries_snoc (h : list Decision) (d : Decision) :
  entries (h ++ [d])
  = (entries h +
     (if is_entry (asked d) && negb (position_bool (seen d)) then 1 else 0))%nat.
Proof.
  unfold entries. rewrite List.filter_app, length_app. cbn [List.filter].
  destruct (is_entry (asked d) && negb (position_bool (seen d))); reflexivity.
Qed.

Lemma check_stop_cases (b : Bar) (s : SimulationState) :
  check_stop b s = s \/
  (position_bool (position s) = true /\
   exists px, check_stop b s = close_at px s).
Proof.
  unfold check_stop, position_bool.
  destruct (direction (position s)); [left; reflexivity| |];
    (destruct (stop_loss (position s)) as [sl|]; [|left; reflexivity]).
  - destruct (fle (Fin (bar_low b)) sl); [right|left; reflexivity].
    split; [reflexivity|]. exists sl. reflexivity.
  - destruct (fle sl (Fin (bar_high b))); [right|left; reflexivity].
    split; [reflexivity|]. exists sl. reflexivity.
Qed.

Lemma close_at_exclusive (px : pyfloat) (s : SimulationState) :
  position_bool (position s) = true ->
  exclusive s -> exclusive (close_at px s).
Proof.
  unfold exclusive. intros Hopen H.
  change (history (close_at px s)) with (history s).
  change (position (close_at px s)) with flat.
  unfold close_at. cbn [trade_log]. rewrite length_app. cbn [length].
  rewrite H. unfold open_count. rewrite Hopen.
  change (position_bool flat) with false. cbv iota. lia.
Qed.

Lemma check_stop_exclusive (b : Bar) (s : SimulationState) :
  exclusive s -> exclusive (check_stop b s).
Proof.
  intros H. destruct (check_stop_cases b s) as [->|(Hopen & px & ->)];
    [exact H|]. apply close_at_exclusive; assumption.
Qed.

Lemma check_stop_history (b : Bar) (s : SimulationState) :
  history (check_stop b s) = history s /\
  bar_index (check_stop b s) = bar_index s /\
  stdout (check_stop b s) = stdout s.
Proof.
  destruct (check_stop_cases b s) as [->|(_ & px & ->)]; repeat split.
Qed.

Lemma check_stop_position (b : Bar) (s : SimulationState) :
  position (check_stop b s) = position s \/ position (check_stop b s) = flat.
Proof.
  destruct (check_stop_cases b s) as [->|(_ & px & ->)];
    [left|right]; reflexivity.
Qed.

Lemma apply_action_cases (b : Bar) (a : action) (s : SimulationState) :
  (position_bool (position s) = false /\ is_entry a = true /\
   exists d sl, apply_action b a s = open_at d b sl s /\ d <> Flat) \/
  (position_bool (position s) = true /\ a = ClosePosition /\
   apply_action b a s = close_at (Fin (bar_close b)) s) \/
  ((is_entry a = true -> position_bool (position s) = true) /\
   apply_action b a s = s).
Proof.
  unfold apply_action, position_bool.
  destruct (direction (position s)), a; cbn;
    try (right; right; split; [intros; congruence|reflexivity]).
  - left. repeat split. exists Long, sl. split; [reflexivity|discriminate].
  - left. repeat split. exists Short, sl. split; [reflexivity|discriminate].
  - right; left. repeat split.
  - right; left. repeat split.
Qed.

Lemma decision_exclusive (b : Bar) (a : action) (out : list diagnostic)
    (s : SimulationState) :
  exclusive s ->
  exclusive (apply_action b a (record_decision (position s) a out s)).
Proof.
  intros H. unfold exclusive in H.
  set (s1 := record_decision (position s) a out s).
  assert (H1 : entries (history s1)
               = (entries (history s)
                  + (if is_entry a && negb (position_bool (position s))
                     then 1 else 0))%nat)
    by (subst s1; cbn [record_decision history]; apply entries_snoc).
  assert (Hp : position s1 = position s) by reflexivity.
  assert (Ht : trade_log s1 = trade_log s) by reflexivity.
  destruct (apply_action_cases b a s1)
    as [(Hflat & Hent & d & sl & -> & Hd)
       |[(Hopen & -> & ->)|(Himp & ->)]].
  - rewrite Hp in Hflat. unfold exclusive. cbn [open_at history trade_log position].
    rewrite H1, Ht, H, Hent, Hflat. unfold open_count in *. rewrite Hflat.
    unfold position_bool. cbn [direction].
    destruct d; [congruence| |]; cbn; lia.
  - apply close_at_exclusive; [exact Hopen|].
    unfold exclusive. rewrite H1, Ht, Hp. cbn [is_entry andb]. lia.
  - unfold exclusive. rewrite H1, Ht, Hp.
    destruct (is_entry a) eqn:Ea; cbn [andb]; [|lia].
    rewrite Hp in Himp. rewrite (Himp eq_refl). cbn [negb]. lia.
Qed.

Lemma decision_position (b : Bar) (a : action) (out : list diagnostic)
    (s : SimulationState) :
  position_bool (position s) = true ->
  let s' := apply_action b a (record_decision (position s) a out s) in
  position s' = position s \/ position s' = flat.
Proof.
  intros Hopen s'. subst s'.
  destruct (apply_action_cases b a (record_decision (position s) a out s))
    as [(Hflat & _)|[(_ & _ & ->)|(_ & ->)]].
  - cbn [record_decision position] in Hflat. congruence.
  - right. reflexivity.
  - left. reflexivity.
Qed.

Lemma apply_action_history (b : Bar) (a : action) (s : SimulationState) :
  history (apply_action b a s) = history s /\
  bar_index (apply_action b a s) = bar_index s /\
  stdout (apply_action b a s) = stdout s.
Proof.
  unfold apply_action.
  destruct (direction (position s)), a; repeat split.
Qed.

Lemma step_invariant (st : Strategy) (b : Bar) (s : SimulationState) (N : nat) :
  well_behaved st N -> (S (bar_index s) <= N)%nat ->
  exclusive s -> signals_ignored s ->
  exists s', step st b s = Returned s' /\
    exclusive s' /\ signals_ignored s' /\
    bar_index s' = S (bar_index s) /\
    (position_bool (position s) = true ->
     position s' = position s \/ position s' = flat).
Proof.
  intros Hwb HN Hex Hsig. unfold step.
  destruct (bar_index s <? warmup st)%nat.
  - eexists. split; [reflexivity|].
    split; [exact (check_stop_exclusive b s Hex)|].
    destruct (check_stop_history b s) as (Hh & Hi & _).
    split; [unfold signals_ignored; cbn [advance history]; rewrite Hh; exact Hsig|].
    split; [cbn [advance bar_index]; rewrite Hi; reflexivity|].
    intros _. exact (check_stop_position b s).
  - destruct (Hwb (S (bar_index s)) (position s) ltac:(lia))
      as (a & out & Hnext & Himp).
    rewrite Hnext. cbn [mbind outcome_bind].
    set (s1 := apply_action b a (record_decision (position s) a out s)).
    eexists. split; [reflexivity|].
    split; [exact (check_stop_exclusive b s1 (decision_exclusive b a out s Hex))|].
    destruct (check_stop_history b s1) as (Hh & Hi & _).
    destruct (apply_action_history b a (record_decision (position s) a out s))
      as (Hh1 & Hi1 & _).
    split.
    { unfold signals_ignored. cbn [advance history]. rewrite Hh.
      subst s1. rewrite Hh1. cbn [record_decision history].
      apply Forall_app. split; [exact Hsig|].
      constructor; [|constructor]. exact Himp. }
    split.
    { cbn [advance bar_index]. rewrite Hi. subst s1. rewrite Hi1. reflexivity. }
    intros Hopen. cbn [advance position].
    destruct (check_stop_position b s1) as [-> | ->]; [|right; reflexivity].
    exact (decision_position b a out s Hopen).
Qed.

Lemma loop_invariant (st : Strategy) (N : nat) (bars : list Bar) :
  well_behaved st N ->
  forall s, (bar_index s + length bars <= N)%nat ->
    exclusive s -> signals_ignored s ->
    exists s', loop st bars s = Returned s' /\
      exclusive s' /\ signals_ignored s' /\
      bar_index s' = (bar_index s + length bars)%nat.
Proof.
  intros Hwb. induction bars as [|b rest IH]; intros s HN Hex Hsig.
  - exists s. repeat split; try assumption. cbn [length]. lia.
  - cbn [length] in HN.
    destruct (step_invariant st b s N Hwb ltac:(lia) Hex Hsig)
      as (s1 & Hstep & Hex1 & Hsig1 & Hi1 & _).
    destruct (IH s1 ltac:(lia) Hex1 Hsig1) as (s' & Hloop & Hex' & Hsig' & Hi').
    exists s'. cbn [loop]. rewrite Hstep. cbn [mbind outcome_bind].
    repeat split; try assumption. cbn [length]. lia.
Qed.

Lemma initial_exclusive (out : list diagnostic) :
  exclusive (initial out) /\ signals_ignored (initial out).
Proof. split; [reflexivity|constructor]. Qed.

Lemma rsi_next_in_position (P : RSIMeanReversion.Params) (rsi : list pyfloat)
    (pos : Position) (x : pyfloat) :
  Py.idx_neg rsi 1 = Some x ->
  exists a, RSIMeanReversion.next P rsi pos = Returned a /\
    (position_bool pos = true -> is_entry a = false).
Proof.
  intros H. unfold RSIMeanReversion.next. rewrite H.
  cbn [index mbind outcome_bind].
  destruct (position_bool pos); cbn [negb];
    split_tests; (eexists; split; [reflexivity|]);
    intros; try reflexivity; try discriminate.
Qed.

Lemma idx_neg_take {A} (l : list A) (n : nat) :
  (1 <= n <= length l)%nat -> exists x, Py.idx_neg (take n l) 1 = Some x.
Proof.
  intros H.
  rewrite idx_neg_in_range by (rewrite length_take; lia).
  apply lookup_lt_is_Some_2. rewrite length_take. lia.
Qed.

Lemma rsi_strategy_well_behaved (P : RSIMeanReversion.Params) (close : list Q) :
  well_behaved (RSIMeanReversion.strategy P close) (length close).
Proof.
  intros n pos Hn. cbn [RSIMeanReversion.strategy next_at].
  destruct (idx_neg_take (RSIMeanReversion.init P close) n) as [x Hx].
  { rewrite init_length. exact Hn. }
  destruct (rsi_next_in_position P _ pos x Hx) as (a & Ha & Himp).
  exists a, []. rewrite Ha. split; [reflexivity|exact Himp].
Qed.

Lemma macd_next_in_position (macd_line signal_line : list pyfloat)
    (pos : Position) :
  exists a, MACD.next macd_line signal_line pos = Returned a /\
    (position_bool pos = true -> is_entry a = false).
Proof.
  unfold MACD.next.
  destruct ((length macd_line <? 2)%nat || (length signal_line <? 2)%nat)
    eqn:E.
  { exists NoOrder. split; [reflexivity|]. intros _. reflexivity. }
  apply orb_false_iff in E as [Hm Hs].
  apply Nat.ltb_ge in Hm. apply Nat.ltb_ge in Hs.
  rewrite !idx_neg_in_range by lia.
  destruct (lookup_lt_is_Some_2 macd_line (length macd_line - 2) ltac:(lia))
    as [m2 ->].
  destruct (lookup_lt_is_Some_2 signal_line (length signal_line - 2)
              ltac:(lia)) as [s2 ->].
  destruct (lookup_lt_is_Some_2 macd_line (length macd_line - 1) ltac:(lia))
    as [m1 ->].
  destruct (lookup_lt_is_Some_2 signal_line (length signal_line - 1)
              ltac:(lia)) as [s1 ->].
  cbn [index mbind outcome_bind].
  destruct (position_bool pos); cbn [negb andb];
    split_tests; (eexists; split; [reflexivity|]);
    intros; try reflexivity; try discriminate.
Qed.

Lemma trend_next_in_position (P : TrendFilteredRSI.Params) (close : list Q)
    (ind : TrendFilteredRSI.Indicators) (pos : Position)
    (price : Q) (r e t : pyfloat) :
  Py.idx_neg close 1 = Some price ->
  Py.idx_neg (TrendFilteredRSI.rsi ind) 1 = Some r ->
  Py.idx_neg (TrendFilteredRSI.ema_long ind) 1 = Some e ->
  Py.idx_neg (TrendFilteredRSI.atr ind) 1 = Some t ->
  exists a out, TrendFilteredRSI.next P close ind pos = Returned (a, out) /\
    (position_bool pos = true -> is_entry a = false).
Proof.
  intros Hp Hr He Ht. unfold TrendFilteredRSI.next.
  destruct (length close <? TrendFilteredRSI.largest_window P)%nat.
  { exists NoOrder, []. split; [reflexivity|]. intros _. reflexivity. }
  read_current Hp Hr He Ht.
  destruct (position_bool pos); cbn [negb];
    split_tests; (eexists _, _; split; [reflexivity|]);
    intros; try reflexivity; try discriminate.
Qed.

(** X2.  The MACD and the trend-filtered [next] return (the latter once
    the data and the three indicator arrays hold a current value) and,
    like the RSI mean-reversion one, never ask for an entry while they
    see an open position. *)
Theorem entries_need_flat_position :
  (forall (macd_line signal_line : list pyfloat) (pos : Position),
     exists a, MACD.next macd_line signal_line pos = Returned a /\
       (position_bool pos = true -> is_entry a = false)) /\
  (forall (P : TrendFilteredRSI.Params) (close : list Q)
          (ind : TrendFilteredRSI.Indicators) (pos : Position)
          (price : Q) (r e t : pyfloat),
     Py.idx_neg close 1 = Some price ->
     Py.idx_neg (TrendFilteredRSI.rsi ind) 1 = Some r ->
     Py.idx_neg (TrendFilteredRSI.ema_long ind) 1 = Some e ->
     Py.idx_neg (TrendFilteredRSI.atr ind) 1 = Some t ->
     exists a out, TrendFilteredRSI.next P close ind pos = Returned (a, out) /\
       (position_bool pos = true -> is_entry a = false)).
Proof.
  split; [exact macd_next_in_position|exact trend_next_in_position].
Qed.

Lemma entries_need_flat_position_witness :
  exists a out,
    TrendFilteredRSI.next (TrendFilteredRSI.with_windows 1 2) [100]
      {| TrendFilteredRSI.rsi := [Fin 20];
         TrendFilteredRSI.ema_long := [Fin 90];
         TrendFilteredRSI.atr := [Fin 1] |}
      {| direction := Long; entry_price := 99; stop_loss := None |}
    = Returned (a, out) /\ is_entry a = false.
Proof.
  destruct (proj2 entries_need_flat_position
              (TrendFilteredRSI.with_windows 1 2) [100]
              {| TrendFilteredRSI.rsi := [Fin 20];
                 TrendFilteredRSI.ema_long := [Fin 90];
                 TrendFilteredRSI.atr := [Fin 1] |}
              {| direction := Long; entry_price := 99; stop_loss := None |}
              100 (Fin 20) (Fin 90) (Fin 1)
              eq_refl eq_refl eq_refl eq_refl)
    as (a & out & H & Himp).
  exists a, out. split; [exact H|exact (Himp eq_refl)].
Defined.

(** C1.  After any number [k] of bars of an RSI mean-reversion backtest
    the run has not raised and: the position is not both long and short;
    the entries made so far are the closed trades plus at most one open
    position; no decision taken while a position was open asked for an
    entry, whatever the RSI was; and the next bar leaves an open position
    as it is or closes it. *)
Theorem single_position_invariant (P : RSIMeanReversion.Params)
    (data : list Bar) (k : nat) :
  let st := RSIMeanReversion.strategy P (map bar_close data) in
  exists s, loop st (take k data) (initial []) = Returned s /\
    (k = length data -> RSIMeanReversion.run_backtest P data = Returned s) /\
    bar_index s = Nat.min k (length data) /\
    is_long (position s) && is_short (position s) = false /\
    exclusive s /\ (open_count (position s) <= 1)%nat /\
    signals_ignored s /\
    (forall rsi x pos, Py.idx_neg rsi 1 = Some x ->
       position_bool pos = true ->
       exists a, RSIMeanReversion.next P rsi pos = Returned a /\
                 is_entry a = false) /\
    (forall b, data !! k = Some b ->
       exists s', step st b s = Returned s' /\
         (position_bool (position s) = true ->
          position s' = position s \/ position s' = flat)).
Proof.
  intros st.
  pose proof (rsi_strategy_well_behaved P (map bar_close data)) as Hwb.
  rewrite length_map in Hwb. fold st in Hwb.
  destruct (initial_exclusive []) as [Hex0 Hsig0].
  destruct (loop_invariant st (length data) (take k data) Hwb (initial [])
              ltac:(cbn [initial bar_index]; rewrite length_take; lia)
              Hex0 Hsig0) as (s & Hloop & Hex & Hsig & Hi).
  exists s. split; [exact Hloop|]. split.
  { intros ->. rewrite firstn_all in Hloop. exact Hloop. }
  split; [rewrite Hi, length_take; reflexivity|].
  split; [unfold is_long, is_short; destruct (direction (position s)); reflexivity|].
  split; [exact Hex|].
  split; [unfold open_count; destruct (position_bool (position s)); lia|].
  split; [exact Hsig|]. split.
  - intros rsi x pos Hx Hopen.
    destruct (rsi_next_in_position P rsi pos x Hx) as (a & Ha & Himp).
    exists a. split; [exact Ha|exact (Himp Hopen)].
  - intros b Hb. apply lookup_lt_Some in Hb.
    destruct (step_invariant st b s (length data) Hwb
                ltac:(rewrite Hi, length_take; cbn [initial bar_index]; lia)
                Hex Hsig)
      as (s' & Hstep & _ & _ & _ & Hpos).
    exists s'. split; [exact Hstep|exact Hpos].
Qed.

(** ** Runs on too little data *)

Lemma step_idle (st : Strategy) (b : Bar) (s : SimulationState) :
  (forall pos, next_at st (S (bar_index s)) pos = Returned (NoOrder, [])) ->
  idle s ->
  exists s', step st b s = Returned s' /\ idle s' /\
    bar_index s' = S (bar_index s) /\ stdout s' = stdout s.
Proof.
  intros Hnext (Hpos & Hlog & Hhist). unfold step.
  assert (Hstop : forall x, position x = flat -> check_stop b x = x).
  { intros x Hx. unfold check_stop. rewrite Hx. reflexivity. }
  destruct (bar_index s <? warmup st)%nat.
  - rewrite (Hstop s Hpos). eexists. split; [reflexivity|].
    repeat split; assumption.
  - rewrite Hnext. cbn [mbind outcome_bind].
    assert (Happ : apply_action b NoOrder
                     (record_decision (position s) NoOrder [] s)
                   = record_decision (position s) NoOrder [] s).
    { unfold apply_action. cbn [record_decision position]. rewrite Hpos.
      reflexivity. }
    rewrite Happ.
    rewrite (Hstop (record_decision (position s) NoOrder [] s) Hpos).
    eexists. split; [reflexivity|].
    split; [|split; [reflexivity|]].
    + split; [exact Hpos|]. split; [exact Hlog|].
      cbn [advance record_decision history].
      apply Forall_app. split; [exact Hhist|].
      constructor; [reflexivity|constructor].
    + cbn [advance record_decision stdout]. apply app_nil_r.
Qed.

Lemma loop_idle (st : Strategy) (bars : list Bar) :
  (forall n pos, next_at st n pos = Returned (NoOrder, [])) ->
  forall s, idle s ->
    exists s', loop st bars s = Returned s' /\ idle s' /\
      bar_index s' = (bar_index s + length bars)%nat /\ stdout s' = stdout s.
Proof.
  intros Hnext. induction bars as [|b rest IH]; intros s Hidle.
  - exists s. repeat split; try apply Hidle. cbn [length]. lia.
  - destruct (step_idle st b s (Hnext _) Hidle) as (s1 & Hstep & Hidle1 & Hi1 & Ho1).
    destruct (IH s1 Hidle1) as (s' & Hloop & Hidle' & Hi' & Ho').
    exists s'. cbn [loop]. rewrite Hstep. cbn [mbind outcome_bind].
    split; [exact Hloop|]. split; [exact Hidle'|].
    split; [cbn [length]; lia|congruence].
Qed.

Lemma initial_idle (out : list diagnostic) : idle (initial out).
Proof. repeat split. constructor. Qed.

(** On too little data the trend-filtered run simulates every bar and
    does nothing on any of them, whatever arrays the indicator functions
    return. *)
Lemma trend_short_run
    (ta_momentum_rsi ta_trend_ema_indicator
       : list Q -> nat -> outcome (list pyfloat))
    (ta_volatility_average_true_range
       : list Q -> list Q -> list Q -> nat -> outcome (list pyfloat))
    (P : TrendFilteredRSI.Params) (data : list Bar) (r e t : list pyfloat) :
  ta_momentum_rsi (map bar_close data) (TrendFilteredRSI.rsi_period P)
    = Returned r ->
  ta_trend_ema_indicator (map bar_close data) (TrendFilteredRSI.ema_period P)
    = Returned e ->
  ta_volatility_average_true_range (map bar_high data) (map bar_low data)
    (map bar_close data) (TrendFilteredRSI.atr_period P) = Returned t ->
  (length data < TrendFilteredRSI.largest_window P)%nat ->
  exists s,
    TrendFilteredRSI.run_backtest ta_momentum_rsi ta_trend_ema_indicator
      ta_volatility_average_true_range P data = Returned s /\
    idle s /\ bar_index s = length data /\
    (data <> [] -> stdout s = [WarnNotEnoughData; StrategyInitialized]).
Proof.
  intros Hr He Ht Hshort. unfold TrendFilteredRSI.run_backtest.
  destruct data as [|b0 rest] eqn:Edata.
  { eexists. split; [reflexivity|].
    split; [apply initial_idle|]. split; [reflexivity|congruence]. }
  rewrite <- Edata in *. unfold TrendFilteredRSI.init.
  rewrite Hr, He, Ht. cbn [mbind outcome_bind].
  match goal with
  | |- context [loop ?st data (initial ?out)] =>
      destruct (loop_idle st data) with (s := initial out)
        as (s & Hloop & Hidle & Hi & Hout)
  end.
  - intros n pos. cbn [TrendFilteredRSI.strategy next_at].
    unfold TrendFilteredRSI.next.
    replace (length (take n (map bar_close data))
               <? TrendFilteredRSI.largest_window P)%nat with true;
      [reflexivity|].
    symmetry. apply Nat.ltb_lt. rewrite length_take, length_map. lia.
  - apply initial_idle.
  - exists s. split; [exact Hloop|]. split; [exact Hidle|].
    split; [exact Hi|]. intros _. rewrite Hout.
    cbn [initial stdout]. unfold TrendFilteredRSI.init_check.
    replace (length data <? TrendFilteredRSI.largest_window P)%nat with true
      by (symmetry; apply Nat.ltb_lt; exact Hshort).
    reflexivity.
Qed.

(** C2 (as amended).  On fewer bars than the largest indicator window the
    trend-filtered run raises no data-insufficient condition: the check in
    [init] only prints the not-enough-data warning and goes on to the
    indicator calls.  Whenever those three calls return their arrays,
    every bar is still simulated, [next] places no order on any of them,
    and the run ends flat with an empty trade log. *)
Theorem short_data_run_is_idle
    (ta_momentum_rsi ta_trend_ema_indicator
       : list Q -> nat -> outcome (list pyfloat))
    (ta_volatility_average_true_range
       : list Q -> list Q -> list Q -> nat -> outcome (list pyfloat))
    (P : TrendFilteredRSI.Params) (data : list Bar) (r e t : list pyfloat) :
  ta_momentum_rsi (map bar_close data) (TrendFilteredRSI.rsi_period P)
    = Returned r ->
  ta_trend_ema_indicator (map bar_close data) (TrendFilteredRSI.ema_period P)
    = Returned e ->
  ta_volatility_average_true_range (map bar_high data) (map bar_low data)
    (map bar_close data) (TrendFilteredRSI.atr_period P) = Returned t ->
  (length data < TrendFilteredRSI.largest_window P)%nat ->
  TrendFilteredRSI.init_check P data = [WarnNotEnoughData] /\
  (exists s,
     TrendFilteredRSI.run_backtest ta_momentum_rsi ta_trend_ema_indicator
       ta_volatility_average_true_range P data = Returned s /\
     idle s /\ bar_index s = length data /\
     (data <> [] -> stdout s = [WarnNotEnoughData; StrategyInitialized])).
Proof.
  intros Hr He Ht Hshort. split.
  - unfold TrendFilteredRSI.init_check.
    replace (length data <? TrendFilteredRSI.largest_window P)%nat with true
      by (symmetry; apply Nat.ltb_lt; exact Hshort).
    reflexivity.
  - exact (trend_short_run _ _ _ P data r e t Hr He Ht Hshort).
Qed.

Lemma short_data_run_is_idle_witness :
  exists s,
    TrendFilteredRSI.run_backtest
      (fun close _ => Returned (map (fun _ => NaN) close))
      (fun close _ => Returned (map (fun _ => NaN) close))
      (fun _ _ close _ => Returned (map (fun _ => Fin 0) close))
      TrendFilteredRSI.defaults (replicate 20 (flat_bar 1)) = Returned s /\
    idle s /\ bar_index s = 20%nat.
Proof.
  destruct (short_data_run_is_idle
              (fun close _ => Returned (map (fun _ => NaN) close))
              (fun close _ => Returned (map (fun _ => NaN) close))
              (fun _ _ close _ => Returned (map (fun _ => Fin 0) close))
              TrendFilteredRSI.defaults (replicate 20 (flat_bar 1))
              _ _ _ eq_refl eq_refl eq_refl)
    as (_ & (s & Hrun & Hidle & Hi & _)).
  - vm_compute. lia.
  - exists s. split; [exact Hrun|]. split; [exact Hidle|exact Hi].
Defined.

(** C2 as stated fails: on 20 bars, fewer than the largest window (200),
    the trend-filtered [init] check yields a warning, not a failure, and
    the run returns with all 20 bars simulated whenever the indicator
    functions return; and the RSI mean-reversion run on 3 bars, fewer
    than its window (14), returns with all 3 bars simulated. *)
Lemma fail_fast_counterexample :
  (length (replicate 20 (flat_bar 1))
     < TrendFilteredRSI.largest_window TrendFilteredRSI.defaults)%nat /\
  TrendFilteredRSI.init_check TrendFilteredRSI.defaults
    (replicate 20 (flat_bar 1)) = [WarnNotEnoughData] /\
  (exists s,
     TrendFilteredRSI.run_backtest
       (fun close _ => Returned (map (fun _ => NaN) close))
       (fun close _ => Returned (map (fun _ => NaN) close))
       (fun _ _ close _ => Returned (map (fun _ => Fin 0) close))
       TrendFilteredRSI.defaults (replicate 20 (flat_bar 1)) = Returned s /\
     bar_index s = 20%nat /\ stdout s = [WarnNotEnoughData; StrategyInitialized]) /\
  (exists s,
     RSIMeanReversion.run_backtest RSIMeanReversion.defaults
       (replicate 3 (flat_bar 1)) = Returned s /\
     bar_index s = 3%nat).
Proof.
  split; [vm_compute; lia|]. split; [reflexivity|]. split.
  - eexists. split; [vm_compute; reflexivity|]. split; reflexivity.
  - eexists. split; [vm_compute; reflexivity|]. reflexivity.
Qed.

(** * Further properties of the indicators and the decision steps *)

(** ** Range of the RSI of src/main.py *)

Lemma Qltb_ge (a b : Q) : Qltb a b = false <-> b <= a.
Proof.
  unfold Qltb. rewrite negb_false_iff. apply Qle_bool_iff.
Qed.

Lemma of_nat_pos (n : nat) : (0 < n)%nat -> 0 < of_nat n.
Proof.
  intros H. unfold of_nat, Qlt. simpl. lia.
Qed.

Lemma gain_at_nonneg (close : list Q) (j : nat) :
  0 <= RSIMeanReversion.gain_at close j.
Proof.
  destruct j as [|j]; cbn [RSIMeanReversion.gain_at]; [apply Qle_refl|].
  destruct (Qltb 0 _) eqn:E; [|apply Qle_refl].
  apply Qltb_lt in E. apply Qlt_le_weak. exact E.
Qed.

Lemma loss_at_nonneg (close : list Q) (j : nat) :
  0 <= RSIMeanReversion.loss_at close j.
Proof.
  destruct j as [|j]; cbn [RSIMeanReversion.loss_at]; [apply Qle_refl|].
  destruct (Qltb _ 0) eqn:E; [|apply Qle_refl].
  apply Qltb_lt in E. lra.
Qed.

Lemma sum_nonneg (f : nat -> Q) (l : list nat) :
  (forall j, 0 <= f j) -> 0 <= foldr Qplus 0 (map f l).
Proof.
  intros Hf. induction l as [|a l IH]; cbn [map foldr]; [apply Qle_refl|].
  pose proof (Hf a). lra.
Qed.

Lemma simple_mean_nonneg (f : nat -> Q) (i n : nat) :
  (0 < n)%nat -> (forall j, 0 <= f j) ->
  0 <= RSIMeanReversion.simple_mean f i n.
Proof.
  intros Hn Hf. unfold RSIMeanReversion.simple_mean.
  apply Qle_shift_div_l; [apply of_nat_pos; exact Hn|].
  rewrite Qmult_0_l. apply sum_nonneg. exact Hf.
Qed.

(** The RSI of a non-negative average gain [g] and a positive average
    loss [l]. *)
Lemma rsi_of_rs_finite (g l : Q) :
  0 <= g -> 0 < l ->
  exists q, RSIMeanReversion.rsi_of_rs (fdiv (Fin g) (Fin l)) = Fin q /\
    q == 100 * g / (g + l) /\ 0 <= q /\ q < 100.
Proof.
  intros Hg Hl.
  assert (Hl0 : is_zero l = false).
  { unfold is_zero. destruct (Qeq_bool l 0) eqn:E; [|reflexivity].
    apply Qeq_bool_iff in E. lra. }
  assert (Hr : 0 <= g / l).
  { apply Qle_shift_div_l; [exact Hl|]. lra. }
  assert (H1 : is_zero (1 + g / l) = false).
  { unfold is_zero. destruct (Qeq_bool (1 + g / l) 0) eqn:E; [|reflexivity].
    apply Qeq_bool_iff in E. lra. }
  unfold RSIMeanReversion.rsi_of_rs.
  cbn [fdiv]. rewrite Hl0. cbn [fadd fdiv]. rewrite H1.
  cbn [fsub fneg fadd].
  eexists. split; [reflexivity|].
  assert (Hq : 100 + - (100 / (1 + g / l)) == 100 * g / (g + l)).
  { field. split; lra. }
  split; [exact Hq|]. rewrite Hq.
  split.
  - apply Qle_shift_div_l; [lra|]. lra.
  - apply Qlt_shift_div_r; [lra|]. lra.
Qed.

Lemma rsi_of_rs_range (g l : Q) :
  0 <= g -> 0 <= l ->
  RSIMeanReversion.rsi_of_rs (fdiv (Fin g) (Fin l)) = NaN \/
  exists q, RSIMeanReversion.rsi_of_rs (fdiv (Fin g) (Fin l)) = Fin q /\
    0 <= q /\ q <= 100.
Proof.
  intros Hg Hl.
  destruct (Qeq_bool l 0) eqn:El.
  - unfold RSIMeanReversion.rsi_of_rs. cbn [fdiv]. unfold is_zero.
    rewrite El. destruct (Qeq_bool g 0) eqn:Eg; [left; reflexivity|].
    right. apply Qeq_bool_neq in Eg.
    assert (Hpos : 0 < g) by (apply Qle_lteq in Hg as [H|H]; [exact H|];
                               exfalso; apply Eg; symmetry; exact H).
    rewrite (proj2 (Qltb_lt 0 g) Hpos).
    exists (100 + - 0). split; [reflexivity|]. split; lra.
  - right. apply Qeq_bool_neq in El.
    assert (Hpos : 0 < l) by (apply Qle_lteq in Hl as [H|H]; [exact H|];
                               exfalso; apply El; symmetry; exact H).
    destruct (rsi_of_rs_finite g l Hg Hpos) as (q & Hq & _ & H0 & H100).
    exists q. split; [exact Hq|]. split; [exact H0|lra].
Qed.

Lemma rsi_formula_unfold (close : list Q) (n i : nat) :
  RSIMeanReversion.rsi_formula close n i
  = if (S i <? n)%nat then NaN
    else RSIMeanReversion.rsi_of_rs
           (fdiv (Fin (RSIMeanReversion.simple_mean
                         (RSIMeanReversion.gain_at close) i n))
                 (Fin (RSIMeanReversion.simple_mean
                         (RSIMeanReversion.loss_at close) i n))).
Proof. reflexivity. Qed.

(** X3.  Every entry of the RSI array that [RSIMeanReversion.init]
    computes is either not-a-number or a number between 0 and 100; it is
    never infinite. *)
Theorem rsi_stays_between_0_and_100 (P : RSIMeanReversion.Params)
    (close : list Q) (i : nat) (v : pyfloat) :
  (0 < RSIMeanReversion.rsi_period P)%nat ->
  RSIMeanReversion.init P close !! i = Some v ->
  v = NaN \/ exists q, v = Fin q /\ 0 <= q /\ q <= 100.
Proof.
  intros Hn Hv.
  assert (Hi : (i < length close)%nat).
  { rewrite <- (init_length P close). eapply lookup_lt_Some. exact Hv. }
  rewrite (init_formula P close i Hn Hi), rsi_formula_unfold in Hv.
  injection Hv as <-.
  destruct (S i <? RSIMeanReversion.rsi_period P)%nat; [left; reflexivity|].
  apply rsi_of_rs_range; apply simple_mean_nonneg;
    auto using gain_at_nonneg, loss_at_nonneg.
Qed.

Lemma rsi_stays_between_0_and_100_witness :
  RSIMeanReversion.init
    {| RSIMeanReversion.rsi_period := 2; RSIMeanReversion.oversold := 30;
       RSIMeanReversion.overbought := 70; RSIMeanReversion.exit_level := 50 |}
    [5; 7; 6] !! 2%nat = Some NaN \/
  exists q,
    RSIMeanReversion.init
      {| RSIMeanReversion.rsi_period := 2; RSIMeanReversion.oversold := 30;
         RSIMeanReversion.overbought := 70; RSIMeanReversion.exit_level := 50 |}
      [5; 7; 6] !! 2%nat = Some (Fin q) /\ 0 <= q /\ q <= 100.
Proof.
  destruct (rsi_stays_between_0_and_100
              {| RSIMeanReversion.rsi_period := 2;
                 RSIMeanReversion.oversold := 30;
                 RSIMeanReversion.overbought := 70;
                 RSIMeanReversion.exit_level := 50 |}
              [5; 7; 6] 2
              (RSIMeanReversion.rsi_formula [5; 7; 6] 2 2)
              ltac:(cbn; lia) eq_refl) as [H|(q & H & Hq)].
  - left. rewrite <- H. reflexivity.
  - right. exists q. split; [rewrite <- H; reflexivity|exact Hq].
Defined.

(** ** No look-ahead in the indicators *)

Lemma price_at_take (close : list Q) (k j : nat) :
  (j < k)%nat ->
  RSIMeanReversion.price_at (take k close) j = RSIMeanReversion.price_at close j.
Proof.
  intros H. unfold RSIMeanReversion.price_at.
  rewrite lookup_take_lt by exact H. reflexivity.
Qed.

Lemma gain_at_take (close : list Q) (k j : nat) :
  (j < k)%nat ->
  RSIMeanReversion.gain_at (take k close) j = RSIMeanReversion.gain_at close j.
Proof.
  intros H. destruct j as [|j]; [reflexivity|].
  cbn [RSIMeanReversion.gain_at].
  rewrite !price_at_take by lia. reflexivity.
Qed.

Lemma loss_at_take (close : list Q) (k j : nat) :
  (j < k)%nat ->
  RSIMeanReversion.loss_at (take k close) j = RSIMeanReversion.loss_at close j.
Proof.
  intros H. destruct j as [|j]; [reflexivity|].
  cbn [RSIMeanReversion.loss_at].
  rewrite !price_at_take by lia. reflexivity.
Qed.

Lemma simple_mean_ext (f g : nat -> Q) (i n : nat) :
  (forall j, (S i - n <= j < S i - n + n)%nat -> f j = g j) ->
  RSIMeanReversion.simple_mean f i n = RSIMeanReversion.simple_mean g i n.
Proof.
  intros H. unfold RSIMeanReversion.simple_mean. f_equal. f_equal.
  apply map_ext_in. intros j Hj. apply in_seq in Hj. apply H. exact Hj.
Qed.

Lemma rsi_formula_take (close : list Q) (n k i : nat) :
  (i < k)%nat ->
  RSIMeanReversion.rsi_formula (take k close) n i
  = RSIMeanReversion.rsi_formula close n i.
Proof.
  intros H. rewrite !rsi_formula_unfold.
  destruct (S i <? n)%nat eqn:E; [reflexivity|].
  apply Nat.ltb_ge in E.
  rewrite (simple_mean_ext (RSIMeanReversion.gain_at (take k close))
             (RSIMeanReversion.gain_at close))
    by (intros j Hj; apply gain_at_take; lia).
  rewrite (simple_mean_ext (RSIMeanReversion.loss_at (take k close))
             (RSIMeanReversion.loss_at close))
    by (intros j Hj; apply loss_at_take; lia).
  reflexivity.
Qed.

(** X5.  The RSI of [RSIMeanReversion.init] looks at no later bar: the
    array computed from the first [k] closes is the first [k] entries of
    the array computed from the whole series. *)
Theorem rsi_has_no_lookahead (P : RSIMeanReversion.Params)
    (close : list Q) (k : nat) :
  (0 < RSIMeanReversion.rsi_period P)%nat ->
  RSIMeanReversion.init P (take k close)
  = take k (RSIMeanReversion.init P close).
Proof.
  intros Hn. apply list_eq. intros i.
  destruct (le_lt_dec (Nat.min k (length close)) i) as [Hi|Hi].
  - rewrite (lookup_ge_None_2 (RSIMeanReversion.init P (take k close)))
      by (rewrite init_length, length_take; exact Hi).
    rewrite lookup_ge_None_2
      by (rewrite length_take, init_length; exact Hi).
    reflexivity.
  - rewrite init_formula by (try rewrite length_take; try exact Hn; lia).
    rewrite lookup_take_lt by lia.
    rewrite init_formula by (try exact Hn; lia).
    rewrite rsi_formula_take by lia. reflexivity.
Qed.

Lemma rsi_has_no_lookahead_witness :
  RSIMeanReversion.init RSIMeanReversion.defaults (take 2 [5; 7; 6; 9])
  = take 2 (RSIMeanReversion.init RSIMeanReversion.defaults [5; 7; 6; 9]).
Proof.
  apply (rsi_has_no_lookahead RSIMeanReversion.defaults [5; 7; 6; 9] 2).
  cbn. lia.
Defined.

Lemma is_EMA_unique (x e1 e2 : list Q) (n : nat) :
  MACD.is_EMA x n e1 -> MACD.is_EMA x n e2 -> e1 = e2.
Proof.
  intros (Hl1 & Hs1 & Hr1) (Hl2 & Hs2 & Hr2).
  apply list_eq. intros i. induction i as [|i IH].
  - congruence.
  - destruct (x !! S i) as [xi|] eqn:Hx.
    + pose proof (lookup_lt_Some _ _ _ Hx) as Hlt.
      destruct (lookup_lt_is_Some_2 e1 i ltac:(lia)) as [p Hp].
      rewrite (Hr1 i xi p ltac:(lia) Hx Hp).
      rewrite Hp in IH. symmetry in IH.
      rewrite (Hr2 i xi p ltac:(lia) Hx IH). reflexivity.
    + apply lookup_ge_None_1 in Hx.
      rewrite !lookup_ge_None_2 by lia. reflexivity.
Qed.

Lemma is_EMA_take (x e : list Q) (n k : nat) :
  MACD.is_EMA x n e -> MACD.is_EMA (take k x) n (take k e).
Proof.
  intros (Hl & Hs & Hr). split; [|split].
  - rewrite !length_take. lia.
  - destruct k as [|k]; [reflexivity|].
    rewrite !lookup_take_lt by lia. exact Hs.
  - intros i xi p _ Hx Hp.
    apply lookup_take_Some in Hx as [Hx Hik].
    apply lookup_take_Some in Hp as [Hp _].
    rewrite lookup_take_lt by exact Hik.
    apply (Hr i xi p); [|exact Hx|exact Hp].
    apply lookup_lt_Some in Hx. lia.
Qed.

(** X6.  The hand-rolled [ema] looks at no later value: on the first
    [k >= 1] values of a series it returns the first [k] entries of what
    it returns on the whole series. *)
Theorem ema_has_no_lookahead (arr : list Q) (n k : nat) :
  (1 <= k)%nat -> arr <> [] ->
  exists e, MACD.ema arr n = Returned e /\
            MACD.ema (take k arr) n = Returned (take k e).
Proof.
  intros Hk Hne.
  destruct (ema_correct arr n Hne) as (e & He & HE).
  exists e. split; [exact He|].
  assert (Hne' : take k arr <> []).
  { destruct arr; [congruence|]. destruct k; [lia|discriminate]. }
  destruct (ema_correct (take k arr) n Hne') as (e' & He' & HE').
  rewrite He'. f_equal.
  apply (is_EMA_unique (take k arr) e' (take k e) n HE').
  apply is_EMA_take. exact HE.
Qed.

Lemma ema_has_no_lookahead_witness :
  exists e, MACD.ema [1; 2; 4] 3 = Returned e /\
            MACD.ema (take 2 [1; 2; 4]) 3 = Returned (take 2 e).
Proof.
  apply (ema_has_no_lookahead [1; 2; 4] 3 2); [lia|discriminate].
Defined.

(** ** The hand-rolled moving average with period 1 *)

Lemma alpha_one : MACD.alpha 1 == 1.
Proof. reflexivity. Qed.

(** X8.  With period 1 (alpha = 1) the hand-rolled [ema] returns the
    series itself. *)
Theorem ema_period_one_is_identity (arr : list Q) :
  arr <> [] ->
  exists e, MACD.ema arr 1 = Returned e /\ Forall2 Qeq e arr.
Proof.
  intros Hne.
  destruct (ema_correct arr 1 Hne) as (e & He & Hlen & Hseed & Hrec).
  exists e. split; [exact He|].
  apply Forall2_same_length_lookup. split; [exact Hlen|].
  intros i. destruct i as [|i]; intros y x Hy Hx.
  - rewrite Hseed in Hy. assert (y = x) by congruence. subst. reflexivity.
  - pose proof (lookup_lt_Some _ _ _ Hy) as Hlt.
    destruct (lookup_lt_is_Some_2 e i ltac:(lia)) as [p Hp].
    rewrite (Hrec i x p ltac:(apply lookup_lt_Some in Hx; lia) Hx Hp) in Hy.
    injection Hy as <-. rewrite alpha_one. ring.
Qed.

Lemma ema_period_one_is_identity_witness :
  exists e, MACD.ema [3; 1; 2] 1 = Returned e /\ Forall2 Qeq e [3; 1; 2].
Proof.
  apply (ema_period_one_is_identity [3; 1; 2]). discriminate.
Defined.

(** ** Symmetry of the MACD decision step *)

Lemma Qltb_opp (a b : Q) : Qltb (- a) (- b) = Qltb b a.
Proof.
  destruct (Qltb b a) eqn:E.
  - apply Qltb_lt in E. apply Qltb_lt. lra.
  - apply Qltb_ge in E. apply Qltb_ge. lra.
Qed.

Lemma flt_fneg (x y : pyfloat) : flt (fneg x) (fneg y) = flt y x.
Proof.
  destruct x, y; cbn [fneg flt]; try reflexivity. apply Qltb_opp.
Qed.

Lemma idx_neg_fmap {A B} (f : A -> B) (l : list A) (k : nat) :
  Py.idx_neg (f <$> l) k = f <$> Py.idx_neg l k.
Proof.
  unfold Py.idx_neg. rewrite length_fmap.
  destruct (k <=? length l)%nat; [|reflexivity].
  apply list_lookup_fmap.
Qed.

Lemma mirror_flags (pos : Position) :
  position_bool (mirror_position pos) = position_bool pos /\
  is_long (mirror_position pos) = is_short pos /\
  is_short (mirror_position pos) = is_long pos.
Proof.
  unfold position_bool, is_long, is_short, mirror_position.
  cbn [direction]. destruct (direction pos); repeat split.
Qed.

(** X10.  [MACDCrossover.next] treats long and short alike: negating both
    lines and exchanging long for short in the position exchanges buy and
    sell in its decision and leaves a close or no order as it is. *)
Theorem macd_next_is_symmetric (macd_line signal_line : list pyfloat)
    (pos : Position) :
  exists a, MACD.next macd_line signal_line pos = Returned a /\
    MACD.next (fneg <$> macd_line) (fneg <$> signal_line)
      (mirror_position pos) = Returned (mirror_action a).
Proof.
  unfold MACD.next. rewrite !length_fmap.
  destruct ((length macd_line <? 2)%nat || (length signal_line <? 2)%nat)
    eqn:E.
  { exists NoOrder. split; reflexivity. }
  apply orb_false_iff in E as [Hm Hs].
  apply Nat.ltb_ge in Hm. apply Nat.ltb_ge in Hs.
  rewrite !idx_neg_fmap, !idx_neg_in_range by lia.
  destruct (lookup_lt_is_Some_2 macd_line (length macd_line - 2) ltac:(lia))
    as [m2 ->].
  destruct (lookup_lt_is_Some_2 signal_line (length signal_line - 2)
              ltac:(lia)) as [s2 ->].
  destruct (lookup_lt_is_Some_2 macd_line (length macd_line - 1) ltac:(lia))
    as [m1 ->].
  destruct (lookup_lt_is_Some_2 signal_line (length signal_line - 1)
              ltac:(lia)) as [s1 ->].
  cbn [fmap option_fmap option_map index mbind outcome_bind].
  destruct (mirror_flags pos) as (-> & -> & ->).
  unfold fgt. rewrite !flt_fneg.
  destruct (flt m2 s2) eqn:A; destruct (flt s2 m2) eqn:B;
    try (rewrite (flt_asym _ _ A) in B; discriminate);
    destruct (flt m1 s1) eqn:C; destruct (flt s1 m1) eqn:D;
    try (rewrite (flt_asym _ _ C) in D; discriminate);
    unfold position_bool, is_long, is_short;
    destruct (direction pos); cbn [negb andb];
    (eexists; split; reflexivity).
Qed.

(** ** Entries at a crossing *)

Lemma flat_flags (pos : Position) :
  position_bool pos = false -> is_long pos = false /\ is_short pos = false.
Proof.
  unfold is_long, position_bool, is_short.
  destruct (direction pos); intros H; try discriminate; split; reflexivity.
Qed.

Lemma macd_next_flat (m s : list pyfloat) (pos : Position) (k : nat)
    (m2 s2 m1 s1 : pyfloat) :
  position_bool pos = false ->
  m !! k = Some m2 -> s !! k = Some s2 ->
  m !! S k = Some m1 -> s !! S k = Some s1 ->
  MACD.next (take (S (S k)) m) (take (S (S k)) s) pos =
  Returned (if flt m2 s2 && fgt m1 s1 then Buy None
            else if fgt m2 s2 && flt m1 s1 then Sell None
            else NoOrder).
Proof.
  intros Hflat Hm2 Hs2 Hm1 Hs1.
  rewrite (take_two_more m k m2 m1 Hm2 Hm1), (take_two_more s k s2 s1 Hs2 Hs1).
  rewrite macd_next_last_two.
  destruct (flat_flags pos Hflat) as [-> ->]. rewrite Hflat.
  cbn [negb andb]. reflexivity.
Qed.

(** The decision taken while flat at each bar of a series that is on one
    side of the signal line before bar [p] and on the other from bar [p]
    on; [up] tells which way the crossing goes. *)
Lemma macd_entry_at_crossing (up : bool) (m s : list pyfloat) (pos : Position)
    (p : nat) :
  position_bool pos = false ->
  length s = length m ->
  (1 <= p < length m)%nat ->
  (forall i x y, (i < p)%nat -> m !! i = Some x -> s !! i = Some y ->
     (if up then flt x y else fgt x y) = true) ->
  (forall i x y, (p <= i)%nat -> m !! i = Some x -> s !! i = Some y ->
     (if up then fgt x y else flt x y) = true) ->
  forall k, (1 <= k < 1 + length m)%nat ->
    MACD.next (take k m) (take k s) pos =
    Returned (if (k =? S p)%nat
              then (if up then Buy None else Sell None) else NoOrder).
Proof.
  intros Hflat Hlen Hp Hbefore Hafter k Hk.
  destruct k as [|[|j]]; [lia| |].
  - rewrite macd_next_short_history by (left; rewrite length_take; lia).
    replace (1 =? S p)%nat with false by (symmetry; apply Nat.eqb_neq; lia).
    reflexivity.
  - destruct (lookup_lt_is_Some_2 m j ltac:(lia)) as [m2 Hm2].
    destruct (lookup_lt_is_Some_2 s j ltac:(lia)) as [s2 Hs2].
    destruct (lookup_lt_is_Some_2 m (S j) ltac:(lia)) as [m1 Hm1].
    destruct (lookup_lt_is_Some_2 s (S j) ltac:(lia)) as [s1 Hs1].
    rewrite (macd_next_flat m s pos j m2 s2 m1 s1 Hflat Hm2 Hs2 Hm1 Hs1).
    assert (H2 : flt m2 s2 = (if up then (j <? p)%nat else (p <=? j)%nat) /\
                 fgt m2 s2 = (if up then (p <=? j)%nat else (j <? p)%nat)).
    { destruct (le_lt_dec p j) as [Hj|Hj].
      - pose proof (Hafter j m2 s2 Hj Hm2 Hs2) as H.
        replace (j <? p)%nat with false by (symmetry; apply Nat.ltb_ge; lia).
        replace (p <=? j)%nat with true by (symmetry; apply Nat.leb_le; lia).
        unfold fgt in *. destruct up; rewrite H, (flt_asym _ _ H); split; reflexivity.
      - pose proof (Hbefore j m2 s2 Hj Hm2 Hs2) as H.
        replace (j <? p)%nat with true by (symmetry; apply Nat.ltb_lt; lia).
        replace (p <=? j)%nat with false by (symmetry; apply Nat.leb_gt; lia).
        unfold fgt in *. destruct up; rewrite H, (flt_asym _ _ H); split; reflexivity. }
    assert (H1 : flt m1 s1 = (if up then (S j <? p)%nat else (p <=? S j)%nat) /\
                 fgt m1 s1 = (if up then (p <=? S j)%nat else (S j <? p)%nat)).
    { destruct (le_lt_dec p (S j)) as [Hj|Hj].
      - pose proof (Hafter (S j) m1 s1 Hj Hm1 Hs1) as H.
        replace (S j <? p)%nat with false by (symmetry; apply Nat.ltb_ge; lia).
        replace (p <=? S j)%nat with true by (symmetry; apply Nat.leb_le; lia).
        unfold fgt in *. destruct up; rewrite H, (flt_asym _ _ H); split; reflexivity.
      - pose proof (Hbefore (S j) m1 s1 Hj Hm1 Hs1) as H.
        replace (S j <? p)%nat with true by (symmetry; apply Nat.ltb_lt; lia).
        replace (p <=? S j)%nat with false by (symmetry; apply Nat.leb_gt; lia).
        unfold fgt in *. destruct up; rewrite H, (flt_asym _ _ H); split; reflexivity. }
    destruct H2 as [-> ->], H1 as [-> ->].
    destruct (Nat.eq_dec (S (S j)) (S p)) as [E|E].
    + replace (S (S j) =? S p)%nat with true by (symmetry; apply Nat.eqb_eq; exact E).
      replace (j <? p)%nat with true by (symmetry; apply Nat.ltb_lt; lia).
      replace (p <=? S j)%nat with true by (symmetry; apply Nat.leb_le; lia).
      replace (p <=? j)%nat with false by (symmetry; apply Nat.leb_gt; lia).
      destruct up; reflexivity.
    + replace (S (S j) =? S p)%nat with false by (symmetry; apply Nat.eqb_neq; exact E).
      destruct (le_lt_dec p j) as [Hj|Hj].
      * replace (j <? p)%nat with false by (symmetry; apply Nat.ltb_ge; lia).
        replace (S j <? p)%nat with false by (symmetry; apply Nat.ltb_ge; lia).
        destruct up; cbn [andb]; rewrite ?andb_false_r; reflexivity.
      * replace (p <=? j)%nat with false by (symmetry; apply Nat.leb_gt; lia).
        replace (p <=? S j)%nat with false by (symmetry; apply Nat.leb_gt; lia).
        destruct up; cbn [andb]; rewrite ?andb_false_r; reflexivity.
Qed.

(** X11.  When the MACD line is below the signal line on bars [0..p-1]
    and above it from bar [p] on, the decisions [MACDCrossover.next] takes
    bar after bar while flat contain exactly one entry, the buy at bar
    [p]; with the sides exchanged the one entry is the sell at bar [p]. *)
Theorem macd_enters_once_at_crossing (up : bool)
    (macd_line signal_line : list pyfloat) (pos : Position) (p : nat) :
  position_bool pos = false ->
  length signal_line = length macd_line ->
  (1 <= p < length macd_line)%nat ->
  (forall i x y, (i < p)%nat ->
     macd_line !! i = Some x -> signal_line !! i = Some y ->
     (if up then flt x y else fgt x y) = true) ->
  (forall i x y, (p <= i)%nat ->
     macd_line !! i = Some x -> signal_line !! i = Some y ->
     (if up then fgt x y else flt x y) = true) ->
  MACD.entry_signals (MACD.decisions macd_line signal_line pos) = 1%nat /\
  MACD.decisions macd_line signal_line pos !! p
    = Some (Returned (if up then Buy None else Sell None)).
Proof.
  intros Hflat Hlen Hp Hbefore Hafter.
  pose proof (macd_entry_at_crossing up macd_line signal_line pos p
                Hflat Hlen Hp Hbefore Hafter) as Hdec.
  split.
  - unfold MACD.entry_signals, MACD.decisions.
    rewrite filter_map_swap, length_map.
    apply (filter_seq_unique _ _ 1 (S p)); [lia|].
    intros k Hk. rewrite (Hdec k ltac:(lia)).
    destruct (Nat.eqb_spec k (S p)) as [E|E].
    + split; [intros _; exact E|intros _; destruct up; reflexivity].
    + split; [discriminate|intros E'; contradiction].
  - unfold MACD.decisions.
    change (map ?f ?l) with (f <$> l).
    rewrite list_lookup_fmap, lookup_seq_lt by lia.
    cbn [fmap option_fmap option_map].
    change (1 + p)%nat with (S p).
    rewrite (Hdec (S p) ltac:(lia)), Nat.eqb_refl. reflexivity.
Qed.

Lemma macd_enters_once_at_crossing_witness :
  MACD.entry_signals
    (MACD.decisions [Fin (-1); Fin 0; Fin 2; Fin 3]
                    [Fin 1; Fin 1; Fin 1; Fin 1] flat) = 1%nat /\
  MACD.decisions [Fin (-1); Fin 0; Fin 2; Fin 3] [Fin 1; Fin 1; Fin 1; Fin 1]
    flat !! 2%nat = Some (Returned (Buy None)).
Proof.
  apply (macd_enters_once_at_crossing true
           [Fin (-1); Fin 0; Fin 2; Fin 3] [Fin 1; Fin 1; Fin 1; Fin 1]
           flat 2%nat).
  - reflexivity.
  - reflexivity.
  - cbn [length]. lia.
  - intros [|[|i]] x y Hi Hx Hy; [| |lia];
      cbn in Hx, Hy; injection Hx as <-; injection Hy as <-; reflexivity.
  - intros [|[|[|[|i]]]] x y Hi Hx Hy; try lia;
      cbn in Hx, Hy; try discriminate;
      injection Hx as <-; injection Hy as <-; reflexivity.
Defined.

(** ** Stops of the trend-filtered strategy *)

(** X12.  Every order [TrendFilteredRSI.next] places carries a stop, and
    the stop is protective: below the current price for a buy, above it
    for a sell, whatever the parameters and the indicator values. *)
Theorem trend_orders_carry_protective_stops (P : TrendFilteredRSI.Params)
    (close : list Q) (ind : TrendFilteredRSI.Indicators) (pos : Position)
    (price : Q) (r e t : pyfloat) :
  Py.idx_neg close 1 = Some price ->
  Py.idx_neg (TrendFilteredRSI.rsi ind) 1 = Some r ->
  Py.idx_neg (TrendFilteredRSI.ema_long ind) 1 = Some e ->
  Py.idx_neg (TrendFilteredRSI.atr ind) 1 = Some t ->
  exists a out,
    TrendFilteredRSI.next P close ind pos = Returned (a, out) /\
    (forall sl, a = Buy sl ->
       exists v, sl = Some v /\ flt v (Fin price) = true) /\
    (forall sl, a = Sell sl ->
       exists v, sl = Some v /\ fgt v (Fin price) = true).
Proof.
  intros Hp Hr He Ht. unfold TrendFilteredRSI.next.
  destruct (length close <? TrendFilteredRSI.largest_window P)%nat.
  { exists NoOrder, []. repeat split; intros; discriminate. }
  read_current Hp Hr He Ht.
  split_tests; (eexists _, _; split; [reflexivity|]);
    split; intros sl Hsl; try discriminate;
    injection Hsl as <-; eexists; (split; [reflexivity|assumption]).
Qed.

Lemma trend_orders_carry_protective_stops_witness :
  exists a out,
    TrendFilteredRSI.next (TrendFilteredRSI.with_windows 1 2) [100]
      {| TrendFilteredRSI.rsi := [Fin 80];
         TrendFilteredRSI.ema_long := [Fin 110];
         TrendFilteredRSI.atr := [Fin 1] |} flat = Returned (a, out) /\
    (forall sl, a = Sell sl ->
       exists v, sl = Some v /\ fgt v (Fin 100) = true).
Proof.
  destruct (trend_orders_carry_protective_stops
              (TrendFilteredRSI.with_windows 1 2) [100]
              {| TrendFilteredRSI.rsi := [Fin 80];
                 TrendFilteredRSI.ema_long := [Fin 110];
                 TrendFilteredRSI.atr := [Fin 1] |} flat
              100 (Fin 80) (Fin 110) (Fin 1)
              eq_refl eq_refl eq_refl eq_refl)
    as (a & out & H & _ & Hsell).
  exists a, out. split; [exact H|exact Hsell].
Defined.

(** ** The RSI of src/main.py on a one-way market *)

Lemma price_at_lookup (close : list Q) (j : nat) (a : Q) :
  close !! j = Some a -> RSIMeanReversion.price_at close j = a.
Proof. intros H. unfold RSIMeanReversion.price_at. rewrite H. reflexivity. Qed.

Lemma step_change (R : Q -> Q -> Prop) (close : list Q) (j : nat) :
  Py.stepwise R close -> (S j < length close)%nat ->
  R (RSIMeanReversion.price_at close j) (RSIMeanReversion.price_at close (S j)).
Proof.
  intros HR Hj.
  destruct (lookup_lt_is_Some_2 close j ltac:(lia)) as [a Ha].
  destruct (lookup_lt_is_Some_2 close (S j) Hj) as [b Hb].
  rewrite (price_at_lookup _ _ _ Ha), (price_at_lookup _ _ _ Hb).
  exact (HR j a b Ha Hb).
Qed.

Lemma sum_zero (f : nat -> Q) (l : list nat) :
  (forall j, In j l -> f j == 0) -> foldr Qplus 0 (map f l) == 0.
Proof.
  induction l as [|a l IH]; intros H; cbn [map foldr]; [reflexivity|].
  rewrite (H a (or_introl eq_refl)), IH; [ring|].
  intros j Hj. apply H. right. exact Hj.
Qed.

Lemma sum_positive (f : nat -> Q) (l : list nat) (j0 : nat) :
  (forall j, 0 <= f j) -> In j0 l -> 0 < f j0 ->
  0 < foldr Qplus 0 (map f l).
Proof.
  intros Hf. induction l as [|a l IH]; intros Hin Hpos; [destruct Hin|].
  cbn [map foldr]. destruct Hin as [->|Hin].
  - pose proof (sum_nonneg f l Hf). lra.
  - pose proof (IH Hin Hpos). pose proof (Hf a). lra.
Qed.

Lemma simple_mean_zero (f : nat -> Q) (i n : nat) :
  (0 < n)%nat -> (n <= S i)%nat ->
  (forall j, (S i - n <= j <= i)%nat -> f j == 0) ->
  RSIMeanReversion.simple_mean f i n == 0.
Proof.
  intros Hn Hi H. unfold RSIMeanReversion.simple_mean.
  rewrite sum_zero.
  - pose proof (of_nat_pos n Hn). field. lra.
  - intros j Hj. apply in_seq in Hj. apply H. lia.
Qed.

Lemma simple_mean_positive (f : nat -> Q) (i n : nat) :
  (0 < n)%nat -> (n <= S i)%nat ->
  (forall j, 0 <= f j) -> 0 < f i ->
  0 < RSIMeanReversion.simple_mean f i n.
Proof.
  intros Hn Hi Hf Hpos. unfold RSIMeanReversion.simple_mean.
  apply Qlt_shift_div_l; [apply of_nat_pos; exact Hn|].
  rewrite Qmult_0_l. apply (sum_positive f _ i Hf); [|exact Hpos].
  apply in_seq. lia.
Qed.

Lemma rsi_of_rs_uptrend (g l : Q) :
  0 < g -> l == 0 ->
  RSIMeanReversion.rsi_of_rs (fdiv (Fin g) (Fin l)) = Fin 100.
Proof.
  intros Hg Hl. unfold RSIMeanReversion.rsi_of_rs. cbn [fdiv].
  unfold is_zero. rewrite (Qeq_eq_bool _ _ Hl).
  replace (Qeq_bool g 0) with false.
  - rewrite (proj2 (Qltb_lt 0 g) Hg). reflexivity.
  - symmetry. destruct (Qeq_bool g 0) eqn:E; [|reflexivity].
    apply Qeq_bool_iff in E. lra.
Qed.

Lemma rsi_of_rs_no_change (g l : Q) :
  g == 0 -> l == 0 ->
  RSIMeanReversion.rsi_of_rs (fdiv (Fin g) (Fin l)) = NaN.
Proof.
  intros Hg Hl. unfold RSIMeanReversion.rsi_of_rs. cbn [fdiv].
  unfold is_zero. rewrite (Qeq_eq_bool _ _ Hl), (Qeq_eq_bool _ _ Hg).
  reflexivity.
Qed.

Section OneWay.

Variable close : list Q.

Lemma rising_gain (j : nat) :
  Py.stepwise Qlt close -> (S j < length close)%nat ->
  0 < RSIMeanReversion.gain_at close (S j) /\
  RSIMeanReversion.loss_at close (S j) == 0.
Proof using Type.
  intros HR Hj. pose proof (step_change Qlt close j HR Hj) as H.
  cbn [RSIMeanReversion.gain_at RSIMeanReversion.loss_at].
  replace (Qltb 0 (RSIMeanReversion.price_at close (S j)
                   - RSIMeanReversion.price_at close j)) with true
    by (symmetry; apply Qltb_lt; lra).
  replace (Qltb (RSIMeanReversion.price_at close (S j)
                 - RSIMeanReversion.price_at close j) 0) with false
    by (symmetry; apply Qltb_ge; lra).
  split; [lra|reflexivity].
Qed.

Lemma falling_loss (j : nat) :
  Py.stepwise (fun a b => b < a) close -> (S j < length close)%nat ->
  RSIMeanReversion.gain_at close (S j) == 0 /\
  0 < RSIMeanReversion.loss_at close (S j).
Proof using Type.
  intros HR Hj.
  pose proof (step_change (fun a b => b < a) close j HR Hj) as H. cbn in H.
  cbn [RSIMeanReversion.gain_at RSIMeanReversion.loss_at].
  replace (Qltb 0 (RSIMeanReversion.price_at close (S j)
                   - RSIMeanReversion.price_at close j)) with false
    by (symmetry; apply Qltb_ge; lra).
  replace (Qltb (RSIMeanReversion.price_at close (S j)
                 - RSIMeanReversion.price_at close j) 0) with true
    by (symmetry; apply Qltb_lt; lra).
  split; [reflexivity|lra].
Qed.

Lemma level_no_change (j : nat) :
  Py.stepwise Qeq close -> (j < length close)%nat ->
  RSIMeanReversion.gain_at close j == 0 /\
  RSIMeanReversion.loss_at close j == 0.
Proof using Type.
  intros HR Hj. destruct j as [|j]; [split; reflexivity|].
  pose proof (step_change Qeq close j HR Hj) as H.
  cbn [RSIMeanReversion.gain_at RSIMeanReversion.loss_at].
  replace (Qltb 0 (RSIMeanReversion.price_at close (S j)
                   - RSIMeanReversion.price_at close j)) with false
    by (symmetry; apply Qltb_ge; lra).
  replace (Qltb (RSIMeanReversion.price_at close (S j)
                 - RSIMeanReversion.price_at close j) 0) with false
    by (symmetry; apply Qltb_ge; lra).
  split; reflexivity.
Qed.

End OneWay.

Lemma rsi_on_rising_market (P : RSIMeanReversion.Params) (close : list Q)
    (i : nat) :
  (0 < RSIMeanReversion.rsi_period P)%nat ->
  (1 <= i)%nat -> (RSIMeanReversion.rsi_period P <= S i)%nat ->
  (i < length close)%nat ->
  Py.stepwise Qlt close ->
  RSIMeanReversion.init P close !! i = Some (Fin 100).
Proof.
  intros Hn Hi1 Hin Hlen HR.
  rewrite (init_formula P close i Hn Hlen), rsi_formula_unfold.
  replace (S i <? RSIMeanReversion.rsi_period P)%nat with false
    by (symmetry; apply Nat.ltb_ge; exact Hin).
  f_equal. apply rsi_of_rs_uptrend.
  - apply simple_mean_positive; [exact Hn|exact Hin|apply gain_at_nonneg|].
    destruct i as [|i]; [lia|]. apply rising_gain; assumption.
  - apply simple_mean_zero; [exact Hn|exact Hin|].
    intros [|j] Hj; [reflexivity|]. apply rising_gain; [exact HR|lia].
Qed.

(** X14.  The RSI of [RSIMeanReversion.init] on a one-way market, at any
    bar [i >= 1] with a full window: 100 when every close is above the one
    before, 0 when every close is below the one before, and not-a-number
    (nothing is raised) when the close never changes. *)
Theorem rsi_on_one_way_market (P : RSIMeanReversion.Params) (close : list Q)
    (i : nat) :
  (0 < RSIMeanReversion.rsi_period P)%nat ->
  (1 <= i)%nat -> (RSIMeanReversion.rsi_period P <= S i)%nat ->
  (i < length close)%nat ->
  (Py.stepwise Qlt close ->
   RSIMeanReversion.init P close !! i = Some (Fin 100)) /\
  (Py.stepwise (fun a b => b < a) close ->
   exists q, RSIMeanReversion.init P close !! i = Some (Fin q) /\ q == 0) /\
  (Py.stepwise Qeq close ->
   RSIMeanReversion.init P close !! i = Some NaN).
Proof.
  intros Hn Hi1 Hin Hlen. split; [|split].
  - apply rsi_on_rising_market; assumption.
  - intros HR.
    rewrite (init_formula P close i Hn Hlen), rsi_formula_unfold.
    replace (S i <? RSIMeanReversion.rsi_period P)%nat with false
      by (symmetry; apply Nat.ltb_ge; exact Hin).
    destruct (rsi_of_rs_finite
                (RSIMeanReversion.simple_mean (RSIMeanReversion.gain_at close)
                   i (RSIMeanReversion.rsi_period P))
                (RSIMeanReversion.simple_mean (RSIMeanReversion.loss_at close)
                   i (RSIMeanReversion.rsi_period P)))
      as (q & Hq & Heq & _).
    + apply simple_mean_nonneg; [exact Hn|apply gain_at_nonneg].
    + apply simple_mean_positive; [exact Hn|exact Hin|apply loss_at_nonneg|].
      destruct i as [|i]; [lia|]. apply falling_loss; assumption.
    + exists q. split; [rewrite Hq; reflexivity|].
      rewrite Heq.
      assert (Hg : RSIMeanReversion.simple_mean (RSIMeanReversion.gain_at close)
                     i (RSIMeanReversion.rsi_period P) == 0).
      { apply simple_mean_zero; [exact Hn|exact Hin|].
        intros [|j] Hj; [reflexivity|]. apply falling_loss; [exact HR|lia]. }
      assert (Hl : 0 < RSIMeanReversion.simple_mean
                         (RSIMeanReversion.loss_at close)
                         i (RSIMeanReversion.rsi_period P)).
      { apply simple_mean_positive; [exact Hn|exact Hin|apply loss_at_nonneg|].
        destruct i as [|i']; [lia|]. apply falling_loss; assumption. }
      rewrite Hg. field. lra.
  - intros HR.
    rewrite (init_formula P close i Hn Hlen), rsi_formula_unfold.
    replace (S i <? RSIMeanReversion.rsi_period P)%nat with false
      by (symmetry; apply Nat.ltb_ge; exact Hin).
    f_equal. apply rsi_of_rs_no_change; apply simple_mean_zero; try exact Hn;
      try exact Hin;
      intros j Hj; apply level_no_change; try exact HR; lia.
Qed.

Lemma rsi_on_one_way_market_witness :
  RSIMeanReversion.init
    {| RSIMeanReversion.rsi_period := 2; RSIMeanReversion.oversold := 30;
       RSIMeanReversion.overbought := 70; RSIMeanReversion.exit_level := 50 |}
    [1; 2; 3] !! 2%nat = Some (Fin 100).
Proof.
  apply (proj1 (rsi_on_one_way_market
           {| RSIMeanReversion.rsi_period := 2; RSIMeanReversion.oversold := 30;
              RSIMeanReversion.overbought := 70;
              RSIMeanReversion.exit_level := 50 |}
           [1; 2; 3] 2 ltac:(cbn; lia) ltac:(lia) ltac:(cbn; lia)
           ltac:(cbn; lia))).
  intros [|[|j]] a b Ha Hb; cbn in Ha, Hb; try discriminate;
    injection Ha as <-; injection Hb as <-; reflexivity.
Defined.

(** X15.  On a market where every close is above the one before, with
    thresholds below 100, [RSIMeanReversion.next] at any bar with a full
    RSI window sells when flat, closes a long, and holds a short: it never
    buys and never covers. *)
Theorem rsi_strategy_on_rising_market (P : RSIMeanReversion.Params)
    (close : list Q) (k : nat) (pos : Position) :
  (0 < RSIMeanReversion.rsi_period P)%nat ->
  Py.stepwise Qlt close ->
  (2 <= k)%nat -> (RSIMeanReversion.rsi_period P <= k)%nat ->
  (k <= length close)%nat ->
  RSIMeanReversion.oversold P <= 100 ->
  RSIMeanReversion.overbought P < 100 ->
  RSIMeanReversion.exit_level P < 100 ->
  RSIMeanReversion.next P (take k (RSIMeanReversion.init P close)) pos
  = Returned (if negb (position_bool pos) then Sell None
              else if is_long pos then ClosePosition else NoOrder).
Proof.
  intros Hn HR Hk2 Hkn Hkl Hos Hob Hex.
  assert (Hcur : Py.idx_neg (take k (RSIMeanReversion.init P close)) 1
                 = Some (Fin 100)).
  { rewrite idx_neg_in_range by (rewrite length_take, init_length; lia).
    rewrite length_take, init_length.
    replace (Nat.min k (length close) - 1)%nat with (k - 1)%nat by lia.
    rewrite lookup_take_lt by lia.
    apply rsi_on_rising_market; try assumption; lia. }
  unfold RSIMeanReversion.next. rewrite Hcur.
  cbn [index mbind outcome_bind]. unfold fgt. cbn [flt].
  replace (Qltb 100 (RSIMeanReversion.oversold P)) with false
    by (symmetry; apply Qltb_ge; exact Hos).
  replace (Qltb (RSIMeanReversion.overbought P) 100) with true
    by (symmetry; apply Qltb_lt; exact Hob).
  replace (Qltb (RSIMeanReversion.exit_level P) 100) with true
    by (symmetry; apply Qltb_lt; exact Hex).
  replace (Qltb 100 (RSIMeanReversion.exit_level P)) with false
    by (symmetry; apply Qltb_ge; lra).
  rewrite !andb_true_r, !andb_false_r.
  destruct (negb (position_bool pos)); [reflexivity|].
  destruct (is_long pos); reflexivity.
Qed.

Lemma rsi_strategy_on_rising_market_witness :
  RSIMeanReversion.next
    {| RSIMeanReversion.rsi_period := 2; RSIMeanReversion.oversold := 30;
       RSIMeanReversion.overbought := 70; RSIMeanReversion.exit_level := 50 |}
    (take 3 (RSIMeanReversion.init
               {| RSIMeanReversion.rsi_period := 2;
                  RSIMeanReversion.oversold := 30;
                  RSIMeanReversion.overbought := 70;
                  RSIMeanReversion.exit_level := 50 |} [1; 2; 3]))
    {| direction := Short; entry_price := 2; stop_loss := None |}
  = Returned NoOrder.
Proof.
  apply (rsi_strategy_on_rising_market
           {| RSIMeanReversion.rsi_period := 2; RSIMeanReversion.oversold := 30;
              RSIMeanReversion.overbought := 70;
              RSIMeanReversion.exit_level := 50 |}
           [1; 2; 3] 3
           {| direction := Short; entry_price := 2; stop_loss := None |}).
  - cbn; lia.
  - intros [|[|j]] a b Ha Hb; cbn in Ha, Hb; try discriminate;
      injection Ha as <-; injection Hb as <-; reflexivity.
  - lia.
  - cbn; lia.
  - cbn; lia.
  - cbn; lra.
  - cbn; lra.
  - cbn; lra.
Defined.

(** ** Gains and losses *)

(** X16.  In [RSIMeanReversion.init] the gain and the loss of every bar
    are numbers (never not-a-number, not even at bar 0), neither is
    negative, at most one of them is non-zero, and from bar 1 on their
    difference is the change of the close. *)
Theorem gain_and_loss_split_the_change (close : list Q) (j : nat) :
  (j < length close)%nat ->
  exists g l,
    RSIMeanReversion.gain close !! j = Some (Fin g) /\
    RSIMeanReversion.loss close !! j = Some (Fin l) /\
    0 <= g /\ 0 <= l /\ (g == 0 \/ l == 0) /\
    (forall a b, (1 <= j)%nat ->
       close !! (j - 1)%nat = Some a -> close !! j = Some b ->
       g - l == b - a).
Proof.
  intros Hj.
  exists (RSIMeanReversion.gain_at close j), (RSIMeanReversion.loss_at close j).
  split; [apply gain_lookup; exact Hj|].
  split; [apply loss_lookup; exact Hj|].
  split; [apply gain_at_nonneg|]. split; [apply loss_at_nonneg|].
  destruct j as [|j].
  - split; [left; reflexivity|]. intros a b H. lia.
  - cbn [RSIMeanReversion.gain_at RSIMeanReversion.loss_at].
    set (d := RSIMeanReversion.price_at close (S j)
              - RSIMeanReversion.price_at close j).
    split.
    + destruct (Qltb 0 d) eqn:E; [|left; reflexivity].
      right. apply Qltb_lt in E.
      replace (Qltb d 0) with false by (symmetry; apply Qltb_ge; lra).
      reflexivity.
    + intros a b _ Ha Hb.
      replace (S j - 1)%nat with j in Ha by lia.
      subst d. rewrite (price_at_lookup _ _ _ Ha), (price_at_lookup _ _ _ Hb).
      destruct (Qltb 0 (b - a)) eqn:E1; destruct (Qltb (b - a) 0) eqn:E2;
        try apply Qltb_lt in E1; try apply Qltb_lt in E2;
        try apply Qltb_ge in E1; try apply Qltb_ge in E2; lra.
Qed.

Lemma gain_and_loss_split_the_change_witness :
  exists g l,
    RSIMeanReversion.gain [5; 7; 6] !! 2%nat = Some (Fin g) /\
    RSIMeanReversion.loss [5; 7; 6] !! 2%nat = Some (Fin l) /\
    g - l == 6 - 7.
Proof.
  destruct (gain_and_loss_split_the_change [5; 7; 6] 2 ltac:(cbn; lia))
    as (g & l & Hg & Hl & _ & _ & _ & Hd).
  exists g, l. split; [exact Hg|]. split; [exact Hl|].
  apply (Hd 7 6); [lia|reflexivity|reflexivity].
Defined.

(** ** Empty input and the shadowed [init] *)



(** ** Entry and exit readings of the RSI mean-reversion strategy *)

(** X18.  With [oversold <= exit_level <= overbought] (as by default) an
    RSI reading on which [RSIMeanReversion.next] would open a position
    never closes that position: a reading that buys when flat leaves a
    long as it is, and a reading that sells when flat leaves a short as
    it is. *)
Theorem rsi_entry_reading_never_exits (P : RSIMeanReversion.Params)
    (rsi : list pyfloat) (entry_price : Q) (sl : option pyfloat) :
  RSIMeanReversion.oversold P <= RSIMeanReversion.exit_level P ->
  RSIMeanReversion.exit_level P <= RSIMeanReversion.overbought P ->
  (RSIMeanReversion.next P rsi flat = Returned (Buy None) ->
   RSIMeanReversion.next P rsi
     {| direction := Long; entry_price := entry_price; stop_loss := sl |}
   = Returned NoOrder) /\
  (RSIMeanReversion.next P rsi flat = Returned (Sell None) ->
   RSIMeanReversion.next P rsi
     {| direction := Short; entry_price := entry_price; stop_loss := sl |}
   = Returned NoOrder).
Proof.
  intros Hlo Hhi. unfold RSIMeanReversion.next.
  destruct (Py.idx_neg rsi 1) as [cur|]; cbn [index mbind outcome_bind];
    [|split; discriminate].
  unfold position_bool, is_long, is_short, fgt. cbn [direction flat negb andb].
  destruct cur as [q| | |]; cbn [flt andb];
    try (split; intros H; first [discriminate H|reflexivity]).
  split.
  - destruct (Qltb q (RSIMeanReversion.oversold P)) eqn:E.
    + intros _. apply Qltb_lt in E.
      replace (Qltb (RSIMeanReversion.exit_level P) q) with false
        by (symmetry; apply Qltb_ge; lra).
      reflexivity.
    + destruct (Qltb (RSIMeanReversion.overbought P) q); discriminate.
  - destruct (Qltb q (RSIMeanReversion.oversold P)) eqn:E; [discriminate|].
    destruct (Qltb (RSIMeanReversion.overbought P) q) eqn:E'; [|discriminate].
    intros _. apply Qltb_lt in E'.
    replace (Qltb q (RSIMeanReversion.exit_level P)) with false
      by (symmetry; apply Qltb_ge; lra).
    reflexivity.
Qed.

Lemma rsi_entry_reading_never_exits_witness :
  RSIMeanReversion.next RSIMeanReversion.defaults [Fin 20]
    {| direction := Long; entry_price := 1; stop_loss := None |}
  = Returned NoOrder.
Proof.
  apply (proj1 (rsi_entry_reading_never_exits RSIMeanReversion.defaults
                  [Fin 20] 1 None ltac:(cbn; lra) ltac:(cbn; lra))).
  reflexivity.
Defined.
